(** * Plagiarism checker: the similarity engine of [uploads/app.py]

    A shallow embedding of the comparison engine (fingerprints, the two
    comparators, the batch grouper and text extraction) together with
    the properties its specification states.

    Conventions of the model.
    - A Python [str] is a Rocq [string]; each character is the code point
      of the same number, so texts range over U+0000..U+00FF.  Word
      characters, line boundaries, lower-casing and UTF-8 encoding are
      those of CPython on that range.
    - [hashlib.md5] is the RFC 1321 function, written out over [Z].
    - A [dict] is a [gmap], a [set] is a [gset].
    - The percentage of a result is the exact rational value of the
      expression the code evaluates, [(overlap_count / total_lines) * 100];
      Python's [==] on numbers is [Qeq].  What the interpreter makes of
      the expression in binary64 is [binary64_percentage].
    - The [ast] module, PyMuPDF, python-docx and the file system are not
      part of the repository: the parser and the dumper are the fields of
      a class, documents on disk are the fields of a [World]. *)

From Stdlib Require Import ZArith QArith Ascii String DecimalString List Permutation Sorted.
From Stdlib Require Floats Uint63.
From stdpp Require Import base decidable option list strings gmap.

Local Open Scope Z_scope.

(** ** Characters and strings *)

Definition ord (c : ascii) : Z := Z.of_N (N_of_ascii c).
Definition chr (z : Z) : ascii := ascii_of_N (Z.to_N z).

Fixpoint str_of_list (l : list ascii) : string :=
  match l with
  | [] => EmptyString
  | c :: t => String c (str_of_list t)
  end.

Fixpoint list_of_str (s : string) : list ascii :=
  match s with
  | EmptyString => []
  | String c t => c :: list_of_str t
  end.

(** [str.encode()]: UTF-8, one byte below U+0080 and two bytes up to
    U+00FF. *)
Definition utf8_char (c : ascii) : list Z :=
  let n := ord c in
  if n <? 128 then [n]
  else [Z.lor 192 (Z.shiftr n 6); Z.lor 128 (Z.land n 63)].

Definition encode (s : string) : list Z :=
  flat_map utf8_char (list_of_str s).

(** ** MD5 (RFC 1321), as [hashlib.md5(data).hexdigest()] *)

Module MD5.

Definition mask32 : Z := 4294967295.
Definition add32 (x y : Z) : Z := Z.land (x + y) mask32.
Definition not32 (x : Z) : Z := Z.lxor x mask32.
Definition rotl32 (x s : Z) : Z :=
  Z.land (Z.lor (Z.shiftl x s) (Z.shiftr x (32 - s))) mask32.

Definition shifts : list Z :=
  [7; 12; 17; 22; 7; 12; 17; 22; 7; 12; 17; 22; 7; 12; 17; 22;
   5; 9; 14; 20; 5; 9; 14; 20; 5; 9; 14; 20; 5; 9; 14; 20;
   4; 11; 16; 23; 4; 11; 16; 23; 4; 11; 16; 23; 4; 11; 16; 23;
   6; 10; 15; 21; 6; 10; 15; 21; 6; 10; 15; 21; 6; 10; 15; 21].

(** [sines !! i] is [floor (2^32 * |sin (i + 1)|)]. *)
Definition sines : list Z :=
  [0xd76aa478; 0xe8c7b756; 0x242070db; 0xc1bdceee;
   0xf57c0faf; 0x4787c62a; 0xa8304613; 0xfd469501;
   0x698098d8; 0x8b44f7af; 0xffff5bb1; 0x895cd7be;
   0x6b901122; 0xfd987193; 0xa679438e; 0x49b40821;
   0xf61e2562; 0xc040b340; 0x265e5a51; 0xe9b6c7aa;
   0xd62f105d; 0x02441453; 0xd8a1e681; 0xe7d3fbc8;
   0x21e1cde6; 0xc33707d6; 0xf4d50d87; 0x455a14ed;
   0xa9e3e905; 0xfcefa3f8; 0x676f02d9; 0x8d2a4c8a;
   0xfffa3942; 0x8771f681; 0x6d9d6122; 0xfde5380c;
   0xa4beea44; 0x4bdecfa9; 0xf6bb4b60; 0xbebfbc70;
   0x289b7ec6; 0xeaa127fa; 0xd4ef3085; 0x04881d05;
   0xd9d4d039; 0xe6db99e5; 0x1fa27cf8; 0xc4ac5665;
   0xf4292244; 0x432aff97; 0xab9423a7; 0xfc93a039;
   0x655b59c3; 0x8f0ccc92; 0xffeff47d; 0x85845dd1;
   0x6fa87e4f; 0xfe2ce6e0; 0xa3014314; 0x4e0811a1;
   0xf7537e82; 0xbd3af235; 0x2ad7d2bb; 0xeb86d391].

Record state := State { sa : Z; sb : Z; sc : Z; sd : Z }.

Definition init : state :=
  State 0x67452301 0xefcdab89 0x98badcfe 0x10325476.

Definition zth (l : list Z) (i : Z) : Z := nth (Z.to_nat i) l 0.

(** One of the 64 operations of a block; [m] holds its 16 words. *)
Definition round (m : list Z) (st : state) (i : Z) : state :=
  let '(State a b c d) := st in
  let '(f, g) :=
    if i <? 16 then (Z.lor (Z.land b c) (Z.land (not32 b) d), i)
    else if i <? 32 then
      (Z.lor (Z.land d b) (Z.land (not32 d) c), (5 * i + 1) mod 16)
    else if i <? 48 then (Z.lxor (Z.lxor b c) d, (3 * i + 5) mod 16)
    else (Z.lxor c (Z.lor b (not32 d)), (7 * i) mod 16) in
  let f' := add32 (add32 (add32 f a) (zth sines i)) (zth m g) in
  State d (add32 b (rotl32 f' (zth shifts i))) b c.

Definition word_of_bytes (bs : list Z) : Z :=
  fold_right (fun b acc => b + 256 * acc) 0 bs.

Fixpoint words (n : nat) (bs : list Z) : list Z :=
  match n with
  | O => []
  | S n' => word_of_bytes (firstn 4 bs) :: words n' (skipn 4 bs)
  end.

Definition compress (st : state) (block : list Z) : state :=
  let m := words 16 block in
  let st' := fold_left (round m) (map Z.of_nat (seq 0 64)) st in
  State (add32 (sa st) (sa st')) (add32 (sb st) (sb st'))
        (add32 (sc st) (sc st')) (add32 (sd st) (sd st')).

Fixpoint le_bytes (n : nat) (x : Z) : list Z :=
  match n with
  | O => []
  | S n' => x mod 256 :: le_bytes n' (x / 256)
  end.

Definition pad (msg : list Z) : list Z :=
  let len := Z.of_nat (length msg) in
  let zeros := Z.to_nat ((55 - len) mod 64) in
  msg ++ 128 :: repeat 0 zeros ++ le_bytes 8 ((8 * len) mod 2 ^ 64).

Fixpoint blocks (n : nat) (bs : list Z) : list (list Z) :=
  match n with
  | O => []
  | S n' => firstn 64 bs :: blocks n' (skipn 64 bs)
  end.

Definition digest (msg : list Z) : state :=
  let p := pad msg in
  fold_left compress (blocks (length p / 64) p) init.

Definition hex_digit (n : Z) : ascii :=
  if n <? 10 then chr (48 + n) else chr (87 + n).

Definition hex_byte (b : Z) (rest : string) : string :=
  String (hex_digit (b / 16)) (String (hex_digit (b mod 16)) rest).

Definition hex_word (w : Z) (rest : string) : string :=
  fold_right hex_byte rest (le_bytes 4 w).

Definition hexdigest (st : state) : string :=
  hex_word (sa st) (hex_word (sb st) (hex_word (sc st)
    (hex_word (sd st) EmptyString))).

End MD5.

(** [hashlib.md5(s.encode()).hexdigest()] *)
Definition md5_hex (s : string) : string :=
  MD5.hexdigest (MD5.digest (encode s)).

(** ** Text primitives of the Python runtime *)

Definition in_range (lo hi n : Z) : bool := (lo <=? n) && (n <=? hi).

(** [\w] of a [str] pattern: [_] and the alphanumeric code points. *)
Definition is_word (c : ascii) : bool :=
  let n := ord c in
  in_range 48 57 n || in_range 65 90 n || (n =? 95) || in_range 97 122 n
  || (n =? 170) || in_range 178 179 n || (n =? 181) || in_range 185 186 n
  || in_range 188 190 n || in_range 192 214 n || in_range 216 246 n
  || in_range 248 255 n.

(** Line boundaries of [str.splitlines]. *)
Definition is_linebreak (c : ascii) : bool :=
  let n := ord c in
  in_range 10 13 n || in_range 28 30 n || (n =? 133).

Definition TOKEN : string := "TOKEN".

(** [re.sub(r'\b\w+\b', 'TOKEN', s)]: a match starts where a word
    character follows a non-word character or the start of the text,
    [\w+] takes the whole run, and the closing [\b] then holds; each
    maximal run of word characters is replaced once.  [in_word] tells
    that the run the scan is in has been replaced already. *)
Fixpoint mask_from (in_word : bool) (s : string) : string :=
  match s with
  | EmptyString => EmptyString
  | String c t =>
      if is_word c then
        if in_word then mask_from true t else TOKEN +:+ mask_from true t
      else String c (mask_from false t)
  end.

Definition mask_words (s : string) : string := mask_from false s.

(** [s.splitlines()]: [\r\n] is one boundary, and a boundary at the
    end of the text opens no further line. *)
Fixpoint splitlines (s : string) : list string :=
  match s with
  | EmptyString => []
  | String c t =>
      if is_linebreak c then
        match c, t with
        | "013"%char, String "010"%char t' => EmptyString :: splitlines t'
        | _, _ => EmptyString :: splitlines t
        end
      else
        match splitlines t with
        | [] => [String c EmptyString]
        | line :: rest => String c line :: rest
        end
  end.

(** [s.lower()] *)
Definition lower_char (c : ascii) : ascii :=
  let n := ord c in
  if in_range 65 90 n || (in_range 192 222 n && negb (n =? 215))
  then chr (n + 32) else c.

Fixpoint lower (s : string) : string :=
  match s with
  | EmptyString => EmptyString
  | String c t => String (lower_char c) (lower t)
  end.

(** [s.lstrip('.')] *)
Fixpoint lstrip_dots (s : string) : string :=
  match s with
  | String "."%char t => lstrip_dots t
  | _ => s
  end.

(** [s.rfind(c)], [-1] when [c] does not occur. *)
Fixpoint rfind_from (c : ascii) (i : Z) (s : string) (found : Z) : Z :=
  match s with
  | EmptyString => found
  | String d t => rfind_from c (i + 1) t (if Ascii.eqb c d then i else found)
  end.

Definition rfind (c : ascii) (s : string) : Z := rfind_from c 0 s (-1).

Definition slice (s : string) (i j : Z) : string :=
  String.substring (Z.to_nat i) (Z.to_nat (j - i)) s.

Fixpoint all_chars (p : ascii → bool) (s : string) : bool :=
  match s with
  | EmptyString => true
  | String c t => p c && all_chars p t
  end.

(** [os.path.splitext(p)] on POSIX: the extension starts at the last dot
    of the last path component, dots that lead the component apart. *)
Definition splitext (p : string) : string * string :=
  let sepIndex := rfind "/"%char p in
  let dotIndex := rfind "."%char p in
  let n := Z.of_nat (String.length p) in
  let leading := slice p (sepIndex + 1) dotIndex in
  if (sepIndex <? dotIndex) && negb (all_chars (Ascii.eqb "."%char) leading)
  then (slice p 0 dotIndex, slice p dotIndex n)
  else (p, EmptyString).

(** ** The [ast] module *)

(** A syntax tree as Python holds it: a node has a class and named
    fields; a field holds a node, a list, a string, a number or [None]. *)
#[local] Unset Elimination Schemes.
Inductive pyobj : Type :=
| Node (cls : string) (fields : list (string * pyobj))
| Seq (items : list pyobj)
| Str (s : string)
| Num (n : Z)
| NoneObj.
#[local] Set Elimination Schemes.

(** [ast.parse] and [ast.dump]; [None] stands for a raised exception
    (a [SyntaxError] for a line that is no module on its own). *)
Class PyAst := {
  ast_parse : string → option pyobj;
  ast_dump : pyobj → option string
}.

Definition REDACTED : pyobj := Str "REDACTED".

(** [node.k = v] on one of the node's fields. *)
Definition set_field (k : string) (v : pyobj)
    (fields : list (string * pyobj)) : list (string * pyobj) :=
  map (fun kv => if String.eqb (fst kv) k then (k, v) else kv) fields.

(** The body of the loop over [ast.walk(tree)], for one node. *)
Definition redact_node (cls : string)
    (fields : list (string * pyobj)) : list (string * pyobj) :=
  if String.eqb cls "FunctionDef" || String.eqb cls "ClassDef"
  then set_field "name" REDACTED fields
  else if String.eqb cls "arg" then set_field "arg" REDACTED fields
  else if String.eqb cls "Name" then set_field "id" REDACTED fields
  else fields.

(** The loop over [ast.walk(tree)]: every node below [tree] is visited
    once; the children of a node are the nodes in its fields and in the
    lists its fields hold. *)
Fixpoint redact (tree : pyobj) : pyobj :=
  match tree with
  | Node cls fields =>
      let item x := match x with Node _ _ => redact x | _ => x end in
      let child v :=
        match v with
        | Node _ _ => redact v
        | Seq items => Seq (map item items)
        | _ => v
        end in
      Node cls (redact_node cls (map (fun kv => (fst kv, child (snd kv))) fields))
  | _ => tree
  end.

(** ** Fingerprints *)

Section Engine.
Context {py : PyAst}.

Definition get_ast_hash (code : string) : option string :=
  match ast_parse code with
  | Some tree =>
      match ast_dump (redact tree) with
      | Some dumped => Some (md5_hex dumped)
      | None => None
      end
  | None => None
  end.

Definition get_text_hash (text : string) : string :=
  md5_hex (mask_words text).

Definition get_tokens (code : string) : string :=
  let code := mask_words code in
  md5_hex code.

(** ** The comparators *)

(** Truth value of a fingerprint: [None] and [''] are false. *)
Definition truthy (h : option string) : bool :=
  match h with
  | Some k => negb (String.eqb k EmptyString)
  | None => false
  end.

(** [normalized_hash] and [tokenized_hash] of a line. *)
Definition line_hashes (is_code : bool) (line : string)
    : option string * option string :=
  if is_code then (get_ast_hash line, Some (get_tokens line))
  else (Some (get_text_hash line), None).

(** [if h: hash_table[h] = line] *)
Definition dict_store (h : option string) (line : string)
    (hash_table : gmap string string) : gmap string string :=
  match h with
  | Some k => if truthy h then <[k := line]> hash_table else hash_table
  | None => hash_table
  end.

(** [h in hash_table]; [None] is no key of the table. *)
Definition dict_has (h : option string) (hash_table : gmap string string) : bool :=
  match h with
  | Some k => bool_decide (is_Some (hash_table !! k))
  | None => false
  end.

Record result := Result {
  overlap_percentage : Q;
  overlap_count : nat;
  overlapping_lines : list string
}.

(** [(overlap_count / total_lines) * 100 if total_lines > 0 else 0] *)
Definition percentage (overlap_count total_lines : nat) : Q :=
  if (0 <? total_lines)%nat
  then (inject_Z (Z.of_nat overlap_count) / inject_Z (Z.of_nat total_lines) * 100)%Q
  else 0%Q.

Definition index_line (is_code : bool)
    (hash_table : gmap string string) (line : string) : gmap string string :=
  let '(normalized_hash, tokenized_hash) := line_hashes is_code line in
  dict_store tokenized_hash line (dict_store normalized_hash line hash_table).

Definition line_matches (is_code : bool)
    (hash_table : gmap string string) (line : string) : bool :=
  let '(normalized_hash, tokenized_hash) := line_hashes is_code line in
  dict_has normalized_hash hash_table
  || (truthy tokenized_hash && dict_has tokenized_hash hash_table).

Definition probe_line (is_code : bool) (hash_table : gmap string string)
    (st : nat * list string) (line : string) : nat * list string :=
  let '(overlap_count, overlapping_lines) := st in
  if line_matches is_code hash_table line
  then (S overlap_count, overlapping_lines ++ [line])
  else (overlap_count, overlapping_lines).

(** [total_lines] of a comparison: the line count of the second text. *)
Definition total_lines (content2 : string) : nat := length (splitlines content2).

(** [compare_files] from the two texts on: both loops and the result. *)
Definition compare_contents (content1 content2 : string) (is_code : bool) : result :=
  let lines1 := splitlines content1 in
  let lines2 := splitlines content2 in
  let hash_table := fold_left (index_line is_code) lines1 ∅ in
  let '(overlap_count, overlapping_lines) :=
    fold_left (probe_line is_code hash_table) lines2 (O, []) in
  let total_lines := length lines2 in
  Result (percentage overlap_count total_lines) overlap_count overlapping_lines.

(** The same with a [set] for the table. *)
Definition set_add (h : option string) (hash_table : gset string) : gset string :=
  match h with
  | Some k => if truthy h then {[ k ]} ∪ hash_table else hash_table
  | None => hash_table
  end.

Definition set_has (h : option string) (hash_table : gset string) : bool :=
  match h with
  | Some k => bool_decide (k ∈ hash_table)
  | None => false
  end.

Definition add_line (is_code : bool)
    (hash_table : gset string) (line : string) : gset string :=
  let '(normalized_hash, tokenized_hash) := line_hashes is_code line in
  set_add tokenized_hash (set_add normalized_hash hash_table).

Definition count_line (is_code : bool) (hash_table : gset string)
    (overlap_count : nat) (line : string) : nat :=
  let '(normalized_hash, tokenized_hash) := line_hashes is_code line in
  if set_has normalized_hash hash_table
     || (truthy tokenized_hash && set_has tokenized_hash hash_table)
  then S overlap_count
  else overlap_count.

Definition compare_two_codes (code1 code2 : string) (is_code : bool) : Q * nat :=
  let lines1 := splitlines code1 in
  let lines2 := splitlines code2 in
  let hash_table := fold_left (add_line is_code) lines1 ∅ in
  let overlap_count := fold_left (count_line is_code hash_table) lines2 O in
  let total_lines := length lines2 in
  (percentage overlap_count total_lines, overlap_count).

End Engine.

(** ** Exceptions, documents on disk and text extraction *)

Inductive exn : Type := Exception (name : string).

Inductive outcome (A : Type) : Type :=
| Returns (a : A)
| Raises (e : exn).
Arguments Returns {A} a.
Arguments Raises {A} e.

#[global] Instance outcome_ret : MRet outcome := fun A a => Returns a.
#[global] Instance outcome_bind : MBind outcome := fun A B f m =>
  match m with
  | Returns a => f a
  | Raises e => Raises e
  end.

(** What the libraries answer for a path: [open(path, 'r').read()],
    [fitz.open(path)] with, per page, [load_page(i).get_text()], and
    [Document(path)] with, per paragraph, [paragraph.text]. *)
Record World := {
  open_read : string → outcome string;
  fitz_open : string → outcome (list (outcome string));
  docx_Document : string → outcome (list (outcome string))
}.

(** The loop of [extract_text_from_pdf] under its [try]: the first
    exception ends it, and [text] is what it is then. *)
Fixpoint pdf_pages (text : string) (pages : list (outcome string)) : string :=
  match pages with
  | [] => text
  | Returns page_text :: rest => pdf_pages (text +:+ page_text) rest
  | Raises _ :: _ => text
  end.

Definition extract_text_from_pdf (w : World) (file_path : string) : string :=
  match fitz_open w file_path with
  | Returns pages => pdf_pages EmptyString pages
  | Raises _ => EmptyString
  end.

Definition newline : string := String (chr 10) EmptyString.

Fixpoint docx_paragraphs (text : string) (paragraphs : list (outcome string)) : string :=
  match paragraphs with
  | [] => text
  | Returns paragraph_text :: rest =>
      docx_paragraphs (text +:+ paragraph_text +:+ newline) rest
  | Raises _ :: _ => text
  end.

Definition extract_text_from_docx (w : World) (file_path : string) : string :=
  match docx_Document w file_path with
  | Returns paragraphs => docx_paragraphs EmptyString paragraphs
  | Raises _ => EmptyString
  end.

(** [os.path.splitext(file_path)[1].lstrip('.').lower()] *)
Definition file_ext (file_path : string) : string :=
  lower (lstrip_dots (snd (splitext file_path))).

Definition get_text_from_file (w : World) (file_path : string) : outcome string :=
  let ext := file_ext file_path in
  if String.eqb ext "pdf" then Returns (extract_text_from_pdf w file_path)
  else if String.eqb ext "docx" then Returns (extract_text_from_docx w file_path)
  else open_read w file_path.

(** ** Comparing two files, grouping a batch *)

Section Files.
Context {py : PyAst}.

Definition compare_files (w : World) (file1 file2 : string) (is_code : bool)
    : outcome result :=
  content1 ← get_text_from_file w file1;
  content2 ← get_text_from_file w file2;
  mret (compare_contents content1 content2 is_code).

Fixpoint read_code_files_into (w : World) (code_contents : gmap string string)
    (file_paths : list string) : outcome (gmap string string) :=
  match file_paths with
  | [] => Returns code_contents
  | file_path :: rest =>
      text ← get_text_from_file w file_path;
      read_code_files_into w (<[file_path := text]> code_contents) rest
  end.

Definition read_code_files (w : World) (file_paths : list string)
    : outcome (gmap string string) :=
  read_code_files_into w ∅ file_paths.

(** [d[k]] *)
Definition dict_get (d : gmap string string) (k : string) : outcome string :=
  match d !! k with
  | Some v => Returns v
  | None => Raises (Exception "KeyError")
  end.

(** [itertools.combinations(l, 2)] *)
Fixpoint combinations2 {A : Type} (l : list A) : list (A * A) :=
  match l with
  | [] => []
  | x :: rest => map (pair x) rest ++ combinations2 rest
  end.

Definition edge : Type := string * string * Q.

Definition edge_percentage (e : edge) : Q := snd e.

(** [sorted(l, key=..., reverse=True)]: the stable sort by decreasing
    key.  [x] stands before every element of [l] in the input, so it
    goes in front of the elements whose key is not greater. *)
Fixpoint insert_reverse {A : Type} (key : A → Q) (x : A) (l : list A) : list A :=
  match l with
  | [] => [x]
  | y :: rest =>
      if Qle_bool (key y) (key x) then x :: l
      else y :: insert_reverse key x rest
  end.

Definition sorted_reverse {A : Type} (key : A → Q) (l : list A) : list A :=
  fold_right (insert_reverse key) [] l.

(** [os.path.splitext(file1)[1].lstrip('.') not in ['txt', 'pdf', 'docx']] *)
Definition group_is_code (file1 : string) : bool :=
  let ext := lstrip_dots (snd (splitext file1)) in
  negb (String.eqb ext "txt" || String.eqb ext "pdf" || String.eqb ext "docx").

(** The loop of [group_similar_files] over the pairs. *)
Fixpoint score_pairs (file_contents : gmap string string)
    (similarities : list edge) (pairs : list (string * string))
    : outcome (list edge) :=
  match pairs with
  | [] => Returns similarities
  | (file1, file2) :: rest =>
      let is_code := group_is_code file1 in
      code1 ← dict_get file_contents file1;
      code2 ← dict_get file_contents file2;
      let '(similarity_percentage, _) := compare_two_codes code1 code2 is_code in
      score_pairs file_contents
        (similarities ++ [(file1, file2, similarity_percentage)]) rest
  end.

Definition group_similar_files (w : World) (file_paths : list string)
    : outcome (list edge) :=
  file_contents ← read_code_files w file_paths;
  similarities ← score_pairs file_contents [] (combinations2 file_paths);
  mret (sorted_reverse edge_percentage similarities).

End Files.

(** ** Lines that differ by identifier renaming *)

(** A line cut at the borders of its maximal runs of word characters. *)
Inductive segment : Type :=
| Word (w : string)
| Sep (c : ascii).

Fixpoint segments (s : string) : list segment :=
  match s with
  | EmptyString => []
  | String c t =>
      if is_word c then
        match segments t with
        | Word w :: rest => Word (String c w) :: rest
        | rest => Word (String c EmptyString) :: rest
        end
      else Sep c :: segments t
  end.







Definition segment_text (x : segment) : string :=
  match x with
  | Word w => w
  | Sep c => String c EmptyString
  end.

(** The cut is at maximal runs: a word is a non-empty run of word
    characters, a separator is no word character, and no two words are
    neighbours. *)
Fixpoint well_cut (l : list segment) : bool :=
  match l with
  | [] => true
  | Word w :: rest =>
      negb (String.eqb w EmptyString) && all_chars is_word w
      && match rest with Word _ :: _ => false | _ => true end
      && well_cut rest
  | Sep c :: rest => negb (is_word c) && well_cut rest
  end.

(** What [mask_words] leaves of a segment. *)
Definition mask_segment (x : segment) : string :=
  match x with
  | Word _ => TOKEN
  | Sep c => String c EmptyString
  end.

Definition mask_segments (l : list segment) : string :=
  fold_right (fun x masked => mask_segment x +:+ masked) EmptyString l.


(** ** Data of the examples *)

Module Examples.

Fixpoint join (sep : string) (l : list string) : string :=
  match l with
  | [] => EmptyString
  | [x] => x
  | x :: rest => x +:+ sep +:+ join sep rest
  end.

Definition decimal (n : Z) : string :=
  DecimalString.NilZero.string_of_int (Z.to_int n).

(** [ast.dump] of CPython 3.11 on trees whose strings need no escape
    and whose fields hold no [None]. *)
Fixpoint dump (o : pyobj) : string :=
  match o with
  | Node cls fields =>
      cls +:+ "(" +:+
      join ", " (map (fun kv => fst kv +:+ "=" +:+ dump (snd kv)) fields) +:+ ")"
  | Seq items => "[" +:+ join ", " (map dump items) +:+ "]"
  | Str s => "'" +:+ s +:+ "'"
  | Num n => decimal n
  | NoneObj => "None"
  end.

Definition module (body : list pyobj) : pyobj :=
  Node "Module" [("body", Seq body); ("type_ignores", Seq [])]%string.

Definition name (id ctx : string) : pyobj :=
  Node "Name" [("id", Str id); ("ctx", Node ctx [])]%string.

Definition constant (n : Z) : pyobj :=
  Node "Constant" [("value", Num n)]%string.

(** [x = n] *)
Definition assign (x : string) (n : Z) : pyobj :=
  module [Node "Assign" [("targets", Seq [name x "Store"]);
                         ("value", constant n)]%string].

(** [def f(x): return x+1] *)
Definition def_increment (f x : string) : pyobj :=
  module
    [Node "FunctionDef"
       [("name", Str f);
        ("args", Node "arguments"
           [("posonlyargs", Seq []);
            ("args", Seq [Node "arg" [("arg", Str x)]]);
            ("kwonlyargs", Seq []);
            ("kw_defaults", Seq []);
            ("defaults", Seq [])]);
        ("body", Seq [Node "Return"
           [("value", Node "BinOp"
               [("left", name x "Load");
                ("op", Node "Add" []);
                ("right", constant 1)])]]);
        ("decorator_list", Seq [])]%string].

Definition parsed_lines : list (string * pyobj) :=
  [("x = 1", assign "x" 1);
   ("y = 2", assign "y" 2);
   ("z = 3", assign "z" 3);
   ("def foo(x): return x+1", def_increment "foo" "x");
   ("def bar(y): return y+1", def_increment "bar" "y")]%string.

Fixpoint assoc {A : Type} (k : string) (l : list (string * A)) : option A :=
  match l with
  | [] => None
  | (k', v) :: rest => if String.eqb k k' then Some v else assoc k rest
  end.

(** The answers of CPython 3.11 on the lines of the examples; any other
    line is answered as a syntax error.  The theorems below hold for
    every parser and dumper; this one makes the examples closed terms. *)
Definition cpython : PyAst :=
  {| ast_parse line := assoc line parsed_lines;
     ast_dump tree := Some (dump tree) |}.

(** A disk of plain text files. *)
Definition disk (files : list (string * string)) : World :=
  {| open_read path :=
       match assoc path files with
       | Some text => Returns text
       | None => Raises (Exception "FileNotFoundError")
       end;
     fitz_open _ := Raises (Exception "FileNotFoundError");
     docx_Document _ := Raises (Exception "PackageNotFoundError") |}.

Definition lines (l : list string) : string := join newline l.

(** A text file that is no UTF-8 and a PDF whose second page is broken. *)
Definition damaged : World :=
  {| open_read path :=
       if String.eqb path "notes.txt"
       then Raises (Exception "UnicodeDecodeError")
       else Raises (Exception "FileNotFoundError");
     fitz_open path :=
       if String.eqb path "scan.pdf"
       then Returns [Returns "page one"%string;
                     Raises (Exception "RuntimeError");
                     Returns "page three"%string]
       else Raises (Exception "FileNotFoundError");
     docx_Document _ := Raises (Exception "PackageNotFoundError") |}.

(** The disks of the examples. *)
Definition assignments : World :=
  disk [("a.py", lines ["x = 1"; "y = 2"]);
        ("b.py", lines ["x = 1"; "z = 3"]);
        ("empty.py", EmptyString)]%string.


Definition batch : World :=
  disk [("a.txt", "a"); ("b.txt", lines ["a"; "+"]); ("c.txt", lines ["+"; "-"])]%string.

End Examples.

(** ** Vocabulary of the statements *)

(** The texts a list of pages or paragraphs yields before the first
    one that raises. *)
Fixpoint before_failure (parts : list (outcome string)) : list string :=
  match parts with
  | Returns text :: rest => text :: before_failure rest
  | _ => []
  end.

(** The file can be read: extraction returns a text. *)
Definition readable (w : World) (file_path : string) : Prop :=
  ∃ text, get_text_from_file w file_path = Returns text.

(** The texts of a list, one after the other. *)
Fixpoint glue (l : list string) : string :=
  match l with
  | [] => EmptyString
  | x :: rest => x +:+ glue rest
  end.

Definition endpoints (e : edge) : string * string := fst e.

(** The pair [p] joins the documents [a] and [b], in either order. *)
Definition joins (a b : string) (p : string * string) : bool :=
  (String.eqb (fst p) a && String.eqb (snd p) b)
  || (String.eqb (fst p) b && String.eqb (snd p) a).

(** The pairs of positions [i < j] of a list in lexicographic order,
    as pairs of its elements. *)
Definition pairs_by_index {A : Type} (d : A) (l : list A) : list (A * A) :=
  flat_map
    (fun i => map (fun j => (nth i l d, nth j l d)) (seq (S i) (length l - S i)))
    (seq 0 (length l)).

(** [e] stands before [e'] in a list sorted by decreasing percentage. *)
Definition not_below (e e' : edge) : Prop :=
  (edge_percentage e' <= edge_percentage e)%Q.

Definition has_percentage (q : Q) (e : edge) : bool :=
  Qeq_bool (edge_percentage e) q.

(** ** Request validation *)

(** The validators return or raise [ValueError] with a message. *)
Inductive validation : Type :=
| Passes
| ValueError (message : string).

Definition SUPPORTED_LANGUAGES : gmap string string :=
  list_to_map
    [("py", "Python"); ("java", "Java"); ("cpp", "C++"); ("js", "JavaScript");
     ("php", "PHP"); ("rb", "Ruby"); ("go", "Go"); ("swift", "Swift");
     ("kt", "Kotlin"); ("ts", "TypeScript"); ("txt", "Text"); ("pdf", "PDF");
     ("docx", "DOCX")]%string.

(** [path_exists] is [os.path.exists]. *)
Definition validate_file_path (path_exists : string → bool)
    (file_path : string) : validation :=
  if negb (path_exists file_path)
  then ValueError ("File not found: " +:+ file_path)
  else Passes.

Definition validate_file_extension (file_path : string) : validation :=
  let ext := lower (lstrip_dots (snd (splitext file_path))) in
  match SUPPORTED_LANGUAGES !! ext with
  | None => ValueError ("Unsupported file extension: " +:+ ext)
  | Some _ => Passes
  end.

(** A value of the request data, as far as [isinstance] tells values
    apart: a string, a list, or anything else. *)
#[local] Unset Elimination Schemes.
Inductive pyvalue : Type :=
| PyStr (s : string)
| PyList (items : list pyvalue)
| PyOther.
#[local] Set Elimination Schemes.

Definition is_str (value : pyvalue) : bool :=
  match value with
  | PyStr _ => true
  | _ => false
  end.

(** The loop over [data[field]] for the field [file_paths]. *)
Fixpoint validate_paths (field : string) (paths : list pyvalue) : validation :=
  match paths with
  | [] => Passes
  | path :: rest =>
      if negb (is_str path)
      then ValueError ("Each path in " +:+ field +:+ " must be a string")
      else validate_paths field rest
  end.

(** The checks of [validate_request_data] on one field. *)
Definition validate_field (data : gmap string pyvalue) (field : string) : validation :=
  match data !! field with
  | None => ValueError ("Missing required field: " +:+ field)
  | Some value =>
      if String.eqb field "file_paths" then
        match value with
        | PyList paths => validate_paths field paths
        | _ => ValueError ("Field " +:+ field +:+ " must be a list of strings")
        end
      else if negb (is_str value)
      then ValueError ("Field " +:+ field +:+ " must be a string")
      else Passes
  end.

Fixpoint validate_request_data (data : gmap string pyvalue)
    (required_fields : list string) : validation :=
  match required_fields with
  | [] => Passes
  | field :: rest =>
      match validate_field data field with
      | Passes => validate_request_data data rest
      | ValueError message => ValueError message
      end
  end.

Definition validate_all_same_language (file_paths : list string) : validation :=
  let extensions : gset string := list_to_set (map file_ext file_paths) in
  if (1 <? size extensions)%nat
  then ValueError "Files must all be of the same supported language"
  else Passes.

(** ** Further vocabulary *)

(** The fingerprints a line has in a comparison: what the first loop
    stores for it and the second loop looks up. *)
Definition fingerprints {py : PyAst} (is_code : bool) (line : string) : list string :=
  let '(normalized_hash, tokenized_hash) := line_hashes is_code line in
  option_list normalized_hash ++ option_list tokenized_hash.

(** The file is extracted as a PDF or DOCX container. *)
Definition container (file_path : string) : Prop :=
  file_ext file_path = "pdf"%string ∨ file_ext file_path = "docx"%string.

(** The file is a container that the library cannot open. *)
Definition unopened (w : World) (file_path : string) : Prop :=
  (file_ext file_path = "pdf"%string ∧ ∃ e, fitz_open w file_path = Raises e)
  ∨ (file_ext file_path = "docx"%string ∧ ∃ e, docx_Document w file_path = Raises e).









(** The value has the type [validate_request_data] asks of the field. *)
Definition well_typed (field : string) (value : pyvalue) : Prop :=
  if String.eqb field "file_paths"
  then ∃ paths, value = PyList paths ∧ Forall (fun path => is_str path = true) paths
  else is_str value = true.

(** The text has no line boundary. *)
Definition one_line (text : string) : bool :=
  all_chars (fun c => negb (is_linebreak c)) text.

(** ** Further data of the examples *)

Module Fixtures.


(** A disk of free texts. *)
Definition texts : World :=
  Examples.disk
    [("ref.txt", Examples.lines ["a"; "+"; "c - d"]);
     ("shuffled.txt", Examples.lines ["c - d"; "a"; "+"; "a"]);
     ("part.txt", Examples.lines ["+"]);
     ("cand.txt", Examples.lines ["b"; "-"; "+"; "e - 7"]);
     ("copy.txt", Examples.lines ["zz"; "+"; "q - r"; "+"]);
     ("empty.txt", EmptyString)]%string.

(** A disk of containers: a DOCX of two paragraphs, a PDF of two pages
    and a PDF that cannot be opened. *)
Definition containers : World :=
  {| open_read _ := Raises (Exception "FileNotFoundError");
     fitz_open path :=
       if String.eqb path "two.pdf"
       then Returns [Returns (Examples.lines ["a"; "+"]); Returns newline]
       else Raises (Exception "FileDataError");
     docx_Document path :=
       if String.eqb path "two.docx"
       then Returns [Returns "a"%string; Returns "+"%string]
       else Raises (Exception "PackageNotFoundError") |}.

(** Request data with a field of each kind. *)
Definition request : gmap string pyvalue :=
  list_to_map
    [("file1", PyStr "a.py");
     ("file_paths", PyList [PyStr "a.py"; PyStr "b.py"])]%string.

Definition on_disk (path : string) : bool :=
  String.eqb path "a.py" || String.eqb path "b.PY".

End Fixtures.

(** ** The percentage in binary64 *)




(** ** Identifiers of Python *)



(** ** Data of the counterexamples *)

Module Counter.


(** [x·y], with U+00B7 between the letters. *)
Definition dotted : string := "x" +:+ String (chr 183) "y".

(** [if <name>:] *)
Definition if_line (name : string) : string := "if " +:+ name +:+ ":".

(** Lines that are no Python module on their own: CPython raises
    [IndentationError] for the first two and [SyntaxError] for the
    others. *)
Definition syntax_errors : list string :=
  [if_line "x"; if_line dotted; "var total = 1;"; "var $total = 1;"]%string.

Definition cpython : PyAst :=
  {| ast_parse line :=
       if existsb (String.eqb line) syntax_errors then None
       else Examples.assoc line Examples.parsed_lines;
     ast_dump tree := Some (Examples.dump tree) |}.


End Counter.

(** * Properties *)

(** ** The runtime on known inputs *)

Example md5_empty : md5_hex "" = "d41d8cd98f00b204e9800998ecf8427e"%string.
Proof. vm_compute. reflexivity. Qed.

Example md5_abc : md5_hex "abc" = "900150983cd24fb0d6963f7d28e17f72"%string.
Proof. vm_compute. reflexivity. Qed.

Example md5_two_blocks :
  md5_hex (str_of_list (repeat "a"%char 70 ++ [chr 233]))
  = "5618b09866372959b0c4446fc1d06dd0"%string.
Proof. vm_compute. reflexivity. Qed.

Example md5_masked_assignment :
  md5_hex "TOKEN = TOKEN" = "f5478463ab9cf9c6d7543b6b4bbe943e"%string.
Proof. vm_compute. reflexivity. Qed.

Example mask_def :
  mask_words "def foo(x): return x+1"
  = "TOKEN TOKEN(TOKEN): TOKEN TOKEN+TOKEN"%string.
Proof. reflexivity. Qed.

Example splitlines_mixed :
  splitlines (str_of_list (list_of_str "a" ++ [chr 13; chr 10] ++ list_of_str "b"
                           ++ [chr 10; chr 10] ++ list_of_str "c" ++ [chr 10]))
  = ["a"; "b"; ""; "c"]%string.
Proof. reflexivity. Qed.

Example splitlines_cr_lf_cr :
  splitlines (str_of_list [chr 13; chr 10; chr 13]) = [""; ""]%string.
Proof. reflexivity. Qed.

Example splitext_examples :
  map splitext ["a.py"; "/x/.bashrc"; "a.b/c"; "a..pdf"; "/up/.PDF"; "x.tar.gz"; "a."]%string
  = [("a", ".py"); ("/x/.bashrc", ""); ("a.b/c", ""); ("a.", ".pdf");
     ("/up/.PDF", ""); ("x.tar", ".gz"); ("a", ".")]%string.
Proof. reflexivity. Qed.

Example dump_def_foo :
  Examples.dump (Examples.def_increment "foo" "x")
  = ("Module(body=[FunctionDef(name='foo', args=arguments(posonlyargs=[], "
     +:+ "args=[arg(arg='x')], kwonlyargs=[], kw_defaults=[], defaults=[]), "
     +:+ "body=[Return(value=BinOp(left=Name(id='x', ctx=Load()), op=Add(), "
     +:+ "right=Constant(value=1)))], decorator_list=[])], type_ignores=[])")%string.
Proof. vm_compute. reflexivity. Qed.

(** Redaction forgets the names of the function and of its parameter,
    so renaming them leaves the structural fingerprint alone. *)
Example redact_def_increment f x :
  redact (Examples.def_increment f x)
  = Examples.def_increment "REDACTED" "REDACTED".
Proof. reflexivity. Qed.

Example ast_hash_def_foo_bar :
  @get_ast_hash Examples.cpython "def foo(x): return x+1"
  = Some "e2fc0f3bd730da3403792063e221b661"%string
  ∧ @get_ast_hash Examples.cpython "def bar(y): return y+1"
    = Some "e2fc0f3bd730da3403792063e221b661"%string.
Proof. split; vm_compute; reflexivity. Qed.

(** ** Digests, lines and percentages *)

Lemma hexdigest_nonempty st : MD5.hexdigest st ≠ EmptyString.
Proof.
  destruct st as [a b c d].
  unfold MD5.hexdigest, MD5.hex_word; cbn [MD5.sa MD5.le_bytes fold_right].
  unfold MD5.hex_byte at 1. discriminate.
Qed.

Lemma md5_hex_truthy s : truthy (Some (md5_hex s)) = true.
Proof.
  unfold truthy, md5_hex.
  destruct (String.eqb_spec (MD5.hexdigest (MD5.digest (encode s))) EmptyString) as [E|]; [|done].
  by apply hexdigest_nonempty in E.
Qed.

Lemma splitlines_nonempty s : s ≠ EmptyString → splitlines s ≠ [].
Proof.
  destruct s as [|c t]; [done|]. intros _. cbn [splitlines].
  destruct (is_linebreak c).
  - destruct c as [[] [] [] [] [] [] [] []]; try discriminate.
    destruct t as [|[[] [] [] [] [] [] [] []] ?]; discriminate.
  - destruct (splitlines t); discriminate.
Qed.

Lemma splitlines_single s :
  s ≠ EmptyString → all_chars (fun c => negb (is_linebreak c)) s = true →
  splitlines s = [s].
Proof.
  induction s as [|c t IH]; [done|]. intros _. cbn [all_chars splitlines].
  intros [Hc Ht]%andb_true_iff. apply negb_true_iff in Hc. rewrite Hc.
  destruct t as [|d t']; [reflexivity|]. by rewrite IH.
Qed.

Lemma percentage_formula n t :
  (percentage n t ==
   if (0 <? t)%nat then 100 * inject_Z (Z.of_nat n) / inject_Z (Z.of_nat t) else 0)%Q.
Proof.
  unfold percentage. destruct (Nat.ltb_spec 0 t) as [Ht|]; [|reflexivity].
  field. intros E. unfold Qeq in E. simpl in E. lia.
Qed.

(** ** The two loops of a comparison *)

Section EngineFacts.
Context {py : PyAst}.

Lemma probe_fold is_code tbl l n acc :
  fold_left (probe_line is_code tbl) l (n, acc)
  = ((n + length (List.filter (line_matches is_code tbl) l))%nat,
     acc ++ List.filter (line_matches is_code tbl) l).
Proof.
  revert n acc. induction l as [|x l IH]; intros n acc; cbn [fold_left List.filter].
  - by rewrite Nat.add_0_r, app_nil_r.
  - unfold probe_line at 2. destruct (line_matches is_code tbl x); rewrite IH.
    + cbn [length]. rewrite <- app_assoc. f_equal. lia.
    + reflexivity.
Qed.

(** The result of a comparison, read off the lines of the second text
    that the table of the first text matches. *)
Lemma compare_contents_matches content1 content2 is_code :
  let tbl := fold_left (index_line is_code) (splitlines content1) ∅ in
  let matched := List.filter (line_matches is_code tbl) (splitlines content2) in
  compare_contents content1 content2 is_code
  = Result (percentage (length matched) (total_lines content2))
           (length matched) matched.
Proof.
  intros tbl matched. unfold compare_contents. fold tbl.
  rewrite probe_fold. reflexivity.
Qed.

(** The keys of the table are what the set variant collects. *)
Lemma dom_dict_store h line (tbl : gmap string string) :
  dom (dict_store h line tbl) = set_add h (dom tbl).
Proof.
  unfold dict_store, set_add. destruct h as [k|]; [|done].
  destruct (truthy (Some k)); [|done]. by rewrite dom_insert_L.
Qed.

Lemma dom_index_line is_code (tbl : gmap string string) line :
  dom (index_line is_code tbl line) = add_line is_code (dom tbl) line.
Proof.
  unfold index_line, add_line. destruct (line_hashes is_code line) as [n t].
  by rewrite !dom_dict_store.
Qed.

Lemma dom_index_fold is_code l (tbl : gmap string string) :
  dom (fold_left (index_line is_code) l tbl)
  = fold_left (add_line is_code) l (dom tbl).
Proof.
  revert tbl. induction l as [|x l IH]; intros tbl; [done|].
  cbn [fold_left]. by rewrite IH, dom_index_line.
Qed.

Lemma dict_has_dom h (tbl : gmap string string) :
  dict_has h tbl = set_has h (dom tbl).
Proof.
  destruct h as [k|]; [|done]. cbn.
  apply bool_decide_ext. by rewrite elem_of_dom.
Qed.

Lemma count_line_matches is_code (tbl : gmap string string) n line :
  count_line is_code (dom tbl) n line
  = if line_matches is_code tbl line then S n else n.
Proof.
  unfold count_line, line_matches.
  destruct (line_hashes is_code line) as [nh th]. by rewrite !dict_has_dom.
Qed.

Lemma count_fold is_code (tbl : gmap string string) l n :
  fold_left (count_line is_code (dom tbl)) l n
  = (n + length (List.filter (line_matches is_code tbl) l))%nat.
Proof.
  revert n. induction l as [|x l IH]; intros n; cbn [fold_left List.filter].
  - by rewrite Nat.add_0_r.
  - rewrite count_line_matches, IH.
    destruct (line_matches is_code tbl x); cbn [length]; lia.
Qed.

Lemma compare_two_codes_matches code1 code2 is_code :
  let tbl := fold_left (index_line is_code) (splitlines code1) ∅ in
  let matched := List.filter (line_matches is_code tbl) (splitlines code2) in
  compare_two_codes code1 code2 is_code
  = (percentage (length matched) (total_lines code2), length matched).
Proof.
  intros tbl matched. unfold compare_two_codes.
  replace (fold_left (add_line is_code) (splitlines code1) ∅) with (dom tbl)
    by (unfold tbl; by rewrite dom_index_fold, dom_empty_L).
  by rewrite count_fold.
Qed.

(** Every line leaves its masked form in the table, and the table only
    grows. *)
Lemma add_line_shape is_code (s : gset string) line :
  {[ md5_hex (mask_words line) ]} ∪ s ⊆ add_line is_code s line.
Proof.
  unfold add_line, line_hashes, get_tokens, get_text_hash, set_add.
  destruct is_code; rewrite (md5_hex_truthy (mask_words line)).
  - destruct (get_ast_hash line) as [k|]; [|done].
    destruct (truthy (Some k)); [|done].
    intros x. rewrite !elem_of_union. tauto.
  - done.
Qed.

Lemma add_fold_grows is_code l (s : gset string) :
  s ⊆ fold_left (add_line is_code) l s.
Proof.
  revert s. induction l as [|x l IH]; intros s; [done|]. cbn [fold_left].
  etrans; [|apply IH]. pose proof (add_line_shape is_code s x). set_solver.
Qed.

Lemma add_fold_shape is_code l (s : gset string) line :
  In line l → md5_hex (mask_words line) ∈ fold_left (add_line is_code) l s.
Proof.
  revert s. induction l as [|x l IH]; intros s; [done|].
  intros [->|Hin]; cbn [fold_left]; [|by apply IH].
  apply (add_fold_grows is_code l). pose proof (add_line_shape is_code s line).
  set_solver.
Qed.

Lemma line_matches_shape is_code (tbl : gmap string string) line :
  md5_hex (mask_words line) ∈ dom tbl → line_matches is_code tbl line = true.
Proof.
  intros Hin. unfold line_matches, line_hashes, get_tokens, get_text_hash.
  destruct is_code; rewrite ?(md5_hex_truthy (mask_words line));
    rewrite (dict_has_dom (Some _)); cbn [set_has andb];
    rewrite (bool_decide_eq_true_2 _ Hin); [apply orb_true_r|done].
Qed.

(** A line of the second text whose masked form is that of a line of the
    first text is matched. *)
Lemma masked_line_matches is_code content1 line line' :
  In line (splitlines content1) → mask_words line' = mask_words line →
  line_matches is_code (fold_left (index_line is_code) (splitlines content1) ∅) line'
  = true.
Proof.
  intros Hin E. apply line_matches_shape. rewrite dom_index_fold, E.
  by apply add_fold_shape.
Qed.




Lemma filter_all {A : Type} (p : A → bool) (l : list A) :
  (∀ x, In x l → p x = true) → List.filter p l = l.
Proof.
  induction l as [|x l IH]; intros Hall; [done|]. cbn [List.filter].
  rewrite (Hall x) by (by left). f_equal. apply IH. intros y Hy. apply Hall. by right.
Qed.

Lemma filter_sublist {A : Type} (p q : A → bool) (l : list A) :
  (∀ x, p x = true → q x = true) → sublist (List.filter p l) (List.filter q l).
Proof.
  intros Hpq. induction l as [|x l IH]; cbn [List.filter]; [constructor|].
  destruct (p x) eqn:Ep.
  - rewrite (Hpq x Ep). by constructor.
  - destruct (q x); [by constructor|done].
Qed.

Lemma compare_files_returns w file1 file2 content1 content2 is_code :
  get_text_from_file w file1 = Returns content1 →
  get_text_from_file w file2 = Returns content2 →
  compare_files w file1 file2 is_code
  = Returns (compare_contents content1 content2 is_code).
Proof. intros E1 E2. unfold compare_files. by rewrite E1, E2. Qed.

End EngineFacts.

(** ** Masking and renaming *)

(** [segments] cuts a text at its maximal runs of word characters and
    loses nothing. *)
Lemma segments_glue s : glue (map segment_text (segments s)) = s.
Proof.
  induction s as [|c t IH]; [done|]. cbn [segments].
  destruct (is_word c).
  - destruct (segments t) as [|[w|d] rest]; cbn in *; by rewrite <- IH.
  - cbn. by rewrite IH.
Qed.

Lemma segments_well_cut s : well_cut (segments s) = true.
Proof.
  induction s as [|c t IH]; [done|]. cbn [segments].
  destruct (is_word c) eqn:Ec.
  - destruct (segments t) as [|[w|d] rest]; cbn in *; rewrite ?Ec; cbn; [done| |done].
    apply andb_true_iff in IH as [IH ?]. apply andb_true_iff in IH as [IH ?].
    apply andb_true_iff in IH as [? ?]. by repeat (apply andb_true_iff; split).
  - cbn. by rewrite Ec, IH.
Qed.

Lemma mask_from_segments s :
  mask_from false s = mask_segments (segments s)
  ∧ mask_from true s
    = mask_segments (match segments s with Word _ :: rest => rest | l => l end).
Proof.
  induction s as [|c t [IHf IHt]]; [done|]. cbn [mask_from segments].
  destruct (is_word c).
  - rewrite IHt. destruct (segments t) as [|[w|d] rest]; done.
  - rewrite IHf. done.
Qed.

Lemma mask_words_segments s : mask_words s = mask_segments (segments s).
Proof. apply mask_from_segments. Qed.



(** ** The comparators *)

Section Comparators.
Context {py : PyAst}.

Lemma percentage_all n : (0 < n)%nat → (percentage n n == 100)%Q.
Proof.
  intros Hn. rewrite percentage_formula.
  destruct (Nat.ltb_spec 0 n) as [_|]; [|lia].
  field. intros E. unfold Qeq in E. simpl in E. lia.
Qed.

(** C1, amended.  With the structured class, the reference text of lines
    [x = 1], [y = 2] and the candidate text of lines [x = 1], [z = 3]
    give [overlap_count = 2], [total_lines = 2], a percentage of 100 and
    both candidate lines as matched lines: [z = 3] has the token shape
    [TOKEN = TOKEN] of the reference lines. *)
Theorem assignments_scenario w file1 file2 :
  get_text_from_file w file1 = Returns (Examples.lines ["x = 1"; "y = 2"]%string) →
  get_text_from_file w file2 = Returns (Examples.lines ["x = 1"; "z = 3"]%string) →
  ∃ r, compare_files w file1 file2 true = Returns r
     ∧ overlap_count r = 2%nat
     ∧ total_lines (Examples.lines ["x = 1"; "z = 3"]%string) = 2%nat
     ∧ (overlap_percentage r == 100)%Q
     ∧ overlapping_lines r = ["x = 1"; "z = 3"]%string.
Proof.
  intros E1 E2. rewrite (compare_files_returns _ _ _ _ _ _ E1 E2).
  eexists; split; [reflexivity|].
  rewrite compare_contents_matches. cbn zeta.
  rewrite filter_all.
  - repeat split.
  - intros line' Hin. apply (masked_line_matches true _ "x = 1"%string).
    + left. reflexivity.
    + destruct Hin as [<-|[<-|[]]]; reflexivity.
Qed.

(** C2.  The scalar comparator returns the percentage and the count that
    the full comparator reports for the same two texts, whatever the
    content class. *)
Theorem compare_two_codes_agrees w file1 file2 content1 content2 is_code :
  get_text_from_file w file1 = Returns content1 →
  get_text_from_file w file2 = Returns content2 →
  ∃ r, compare_files w file1 file2 is_code = Returns r
     ∧ compare_two_codes content1 content2 is_code
       = (overlap_percentage r, overlap_count r).
Proof.
  intros E1 E2. rewrite (compare_files_returns _ _ _ _ _ _ E1 E2).
  eexists; split; [reflexivity|].
  rewrite compare_two_codes_matches, compare_contents_matches. reflexivity.
Qed.

(** C4.  Self-similarity: a non-empty text compared with itself has an
    overlap percentage of 100, for either content class. *)
Theorem self_similarity w file1 file2 content is_code :
  get_text_from_file w file1 = Returns content →
  get_text_from_file w file2 = Returns content →
  content ≠ EmptyString →
  ∃ r, compare_files w file1 file2 is_code = Returns r
     ∧ (overlap_percentage r == 100)%Q.
Proof.
  intros E1 E2 Hne. rewrite (compare_files_returns _ _ _ _ _ _ E1 E2).
  eexists; split; [reflexivity|].
  rewrite compare_contents_matches. cbn zeta.
  rewrite filter_all.
  - cbn [overlap_percentage]. apply percentage_all. unfold total_lines.
    apply splitlines_nonempty in Hne. destruct (splitlines content); [done|cbn; lia].
  - intros line Hin. by apply (masked_line_matches is_code _ line).
Qed.

(** The exact value of the percentage of a result, before any rounding,
    is [100 * overlap_count / total_lines] when the candidate has lines
    and 0 when it has none; against the empty candidate both this value
    and the count are 0. *)
Theorem percentage_invariant w file1 file2 empty_file content1 content2 is_code :
  get_text_from_file w file1 = Returns content1 →
  get_text_from_file w file2 = Returns content2 →
  get_text_from_file w empty_file = Returns EmptyString →
  (∃ r, compare_files w file1 file2 is_code = Returns r
      ∧ (overlap_percentage r ==
         if (0 <? total_lines content2)%nat
         then 100 * inject_Z (Z.of_nat (overlap_count r))
              / inject_Z (Z.of_nat (total_lines content2))
         else 0)%Q)
  ∧ (∃ r, compare_files w file1 empty_file is_code = Returns r
      ∧ (overlap_percentage r == 0)%Q ∧ overlap_count r = 0%nat).
Proof.
  intros E1 E2 E3. split.
  - rewrite (compare_files_returns _ _ _ _ _ _ E1 E2).
    eexists; split; [reflexivity|].
    rewrite compare_contents_matches. cbn zeta. cbn [overlap_percentage overlap_count].
    apply percentage_formula.
  - rewrite (compare_files_returns _ _ _ _ _ _ E1 E3).
    eexists; split; [reflexivity|].
    rewrite compare_contents_matches. cbn. done.
Qed.


(** C7.  Asymmetry: some two texts compared in the two orders have
    different overlap percentages; the matched lines are lines of the
    second text, and the percentage is taken over its line count. *)
Theorem comparison_is_asymmetric :
  (∃ w file1 file2 is_code r r',
      compare_files w file1 file2 is_code = Returns r
      ∧ compare_files w file2 file1 is_code = Returns r'
      ∧ ¬ (overlap_percentage r == overlap_percentage r')%Q)
  ∧ (∀ content1 content2 is_code,
      let r := compare_contents content1 content2 is_code in
      sublist (overlapping_lines r) (splitlines content2)
      ∧ overlap_count r = length (overlapping_lines r)
      ∧ overlap_percentage r = percentage (overlap_count r) (total_lines content2)).
Proof.
  split.
  - exists Examples.batch.
    exists "a.txt"%string, "b.txt"%string, false.
    eexists _, _. split; [vm_compute; reflexivity|].
    split; [vm_compute; reflexivity|]. cbn. unfold Qeq. cbn. lia.
  - intros. unfold r. rewrite compare_contents_matches.
    cbn [overlapping_lines overlap_count overlap_percentage].
    split; [|done].
    rewrite <- (filter_all (fun _ => true) (splitlines content2)) at 2 by done.
    by apply filter_sublist.
Qed.

Lemma add_fold_classes l (s s' : gset string) :
  s ⊆ s' → fold_left (add_line false) l s ⊆ fold_left (add_line true) l s'.
Proof.
  revert s s'. induction l as [|x l IH]; intros s s' Hs; cbn [fold_left]; [done|].
  apply IH. unfold add_line, line_hashes, get_tokens, get_text_hash, set_add.
  rewrite (md5_hex_truthy (mask_words x)).
  destruct (get_ast_hash x) as [a|]; [destruct (truthy (Some a))|];
    intros y; rewrite !elem_of_union; intros [?|?]; auto.
Qed.

(** C10.  [get_text_hash] and [get_tokens] are one function, the digest
    of the text with [TOKEN] in place of each maximal run of word
    characters, so the
    candidate lines that the free-text class matches are among those
    whose token-shape fingerprint is in the table of the structured
    class, which are among the lines the structured class matches. *)
Theorem text_hash_is_token_hash :
  (∀ s, get_text_hash s = get_tokens s)
  ∧ (∀ s, get_tokens s = md5_hex (mask_segments (segments s)))
  ∧ (∀ content1 content2,
      let token_hits :=
        List.filter
          (fun line =>
             dict_has (Some (get_tokens line))
               (fold_left (index_line true) (splitlines content1) ∅))
          (splitlines content2) in
      sublist (overlapping_lines (compare_contents content1 content2 false))
              token_hits
      ∧ sublist token_hits
                (overlapping_lines (compare_contents content1 content2 true))).
Proof.
  split; [reflexivity|].
  split; [intros s; unfold get_tokens; by rewrite mask_words_segments|].
  intros content1 content2 token_hits.
  rewrite !compare_contents_matches. cbn [overlapping_lines]. split.
  - apply filter_sublist. intros line.
    unfold line_matches, line_hashes. rewrite orb_false_r, !dict_has_dom.
    cbn [set_has]. rewrite !bool_decide_eq_true, !dom_index_fold.
    apply add_fold_classes. done.
  - apply filter_sublist. intros line E.
    unfold line_matches, line_hashes, get_tokens in *.
    rewrite (md5_hex_truthy (mask_words line)), E. apply orb_true_r.
Qed.

End Comparators.

(** ** Text extraction *)

Lemma string_app_nil_r (s : string) : s +:+ EmptyString = s.
Proof.
  induction s as [|c s IH]; [done|].
  change (String c (s +:+ EmptyString) = String c s). by rewrite IH.
Qed.

Lemma string_app_assoc (a b c : string) : (a +:+ b) +:+ c = a +:+ (b +:+ c).
Proof.
  induction a as [|x a IH]; [done|].
  change (String x ((a +:+ b) +:+ c) = String x (a +:+ (b +:+ c))). by rewrite IH.
Qed.

Lemma pdf_pages_before_failure text pages :
  pdf_pages text pages = text +:+ glue (before_failure pages).
Proof.
  revert text.
  induction pages as [|[t|e] rest IH]; intros text;
    cbn [pdf_pages before_failure glue].
  - by rewrite string_app_nil_r.
  - by rewrite IH, string_app_assoc.
  - by rewrite string_app_nil_r.
Qed.

Lemma docx_paragraphs_before_failure text paragraphs :
  docx_paragraphs text paragraphs
  = text +:+ glue (map (fun t => t +:+ newline) (before_failure paragraphs)).
Proof.
  revert text.
  induction paragraphs as [|[t|e] rest IH]; intros text;
    cbn [docx_paragraphs before_failure glue map].
  - by rewrite string_app_nil_r.
  - by rewrite IH, !string_app_assoc.
  - by rewrite string_app_nil_r.
Qed.

(** C3, amended.  For the extensions [pdf] and [docx] text extraction
    never propagates an error: when the container cannot be opened it
    returns the empty text, which has no lines, and when a page or a
    paragraph fails it returns the text of those before it. *)
Theorem container_extraction_never_raises w file_path :
  file_ext file_path = "pdf"%string ∨ file_ext file_path = "docx"%string →
  ∃ text, get_text_from_file w file_path = Returns text
    ∧ ((file_ext file_path = "pdf"%string
        ∧ match fitz_open w file_path with
          | Raises _ => text = EmptyString ∧ splitlines text = []
          | Returns pages => text = glue (before_failure pages)
          end)
       ∨ (file_ext file_path = "docx"%string
          ∧ match docx_Document w file_path with
            | Raises _ => text = EmptyString ∧ splitlines text = []
            | Returns paragraphs =>
                text = glue (map (fun t => t +:+ newline) (before_failure paragraphs))
            end)).
Proof.
  intros [E|E]; unfold get_text_from_file; rewrite E; cbn [String.eqb Ascii.eqb Bool.eqb].
  - eexists; split; [reflexivity|]. left. split; [done|].
    unfold extract_text_from_pdf. destruct (fitz_open w file_path) as [pages|e].
    + by rewrite pdf_pages_before_failure.
    + done.
  - eexists; split; [reflexivity|]. right. split; [done|].
    unfold extract_text_from_docx. destruct (docx_Document w file_path) as [ps|e].
    + by rewrite docx_paragraphs_before_failure.
    + done.
Qed.

(** ** Sorting by decreasing key *)

Section Sorting.
Context {A : Type} (key : A → Q).

Local Abbreviation above := (fun x y : A => (key y <= key x)%Q).
Local Abbreviation tied q := (fun x : A => Qeq_bool (key x) q).

Lemma insert_reverse_perm x l : Permutation (insert_reverse key x l) (x :: l).
Proof.
  induction l as [|y l IH]; cbn [insert_reverse]; [done|].
  destruct (Qle_bool (key y) (key x)); [done|].
  rewrite IH. apply perm_swap.
Qed.

Lemma sorted_reverse_perm l : Permutation (sorted_reverse key l) l.
Proof.
  induction l as [|x l IH]; cbn [sorted_reverse fold_right]; [done|].
  fold (sorted_reverse key l). by rewrite insert_reverse_perm, IH.
Qed.

Lemma insert_reverse_sorted x l :
  StronglySorted above l → StronglySorted above (insert_reverse key x l).
Proof.
  induction 1 as [|y l Hl IH Hy]; cbn [insert_reverse].
  - repeat constructor.
  - destruct (Qle_bool (key y) (key x)) eqn:E.
    + apply Qle_bool_iff in E. constructor; [by constructor|].
      constructor; [exact E|].
      eapply Forall_impl; [exact Hy|]. intros z Hz. cbn in *.
      by eapply Qle_trans.
    + constructor; [exact IH|].
      rewrite insert_reverse_perm. constructor; [|exact Hy].
      apply Qlt_le_weak, Qnot_le_lt. intros Hle.
      apply Qle_bool_iff in Hle. congruence.
Qed.

Lemma sorted_reverse_sorted l : StronglySorted above (sorted_reverse key l).
Proof.
  induction l as [|x l IH]; cbn [sorted_reverse fold_right]; [constructor|].
  by apply insert_reverse_sorted.
Qed.

Lemma insert_reverse_stable q x l :
  List.filter (tied q) (insert_reverse key x l) = List.filter (tied q) (x :: l).
Proof.
  induction l as [|y l IH]; cbn [insert_reverse]; [done|].
  destruct (Qle_bool (key y) (key x)) eqn:E; [done|].
  cbn [List.filter] in *. rewrite IH.
  destruct (Qeq_bool (key x) q) eqn:Ex, (Qeq_bool (key y) q) eqn:Ey; try done.
  apply Qeq_bool_iff in Ex, Ey.
  assert (Hle : Qle_bool (key y) (key x) = true); [|congruence].
  apply Qle_bool_iff. rewrite Ex, Ey. apply Qle_refl.
Qed.

Lemma sorted_reverse_stable q l :
  List.filter (tied q) (sorted_reverse key l) = List.filter (tied q) l.
Proof.
  induction l as [|x l IH]; cbn [sorted_reverse fold_right]; [done|].
  fold (sorted_reverse key l). rewrite insert_reverse_stable.
  cbn [List.filter]. by rewrite IH.
Qed.

End Sorting.

Lemma filter_length_perm {A : Type} (p : A → bool) (l l' : list A) :
  Permutation l l' → length (List.filter p l) = length (List.filter p l').
Proof.
  induction 1 as [|x l l' _ IH|x y l|l l' l'' _ IH1 _ IH2]; cbn [List.filter].
  - done.
  - destruct (p x); cbn [length]; by rewrite IH.
  - by destruct (p x), (p y).
  - by rewrite IH1.
Qed.

(** ** Pairs of a list *)

Lemma combinations2_in {A : Type} (l : list A) a b :
  In (a, b) (combinations2 l) → In a l ∧ In b l.
Proof.
  induction l as [|x l IH]; cbn [combinations2]; [done|].
  rewrite in_app_iff, in_map_iff. intros [(y & [= <- <-] & Hy)|Hin].
  - split; [by left|by right].
  - destruct (IH Hin). split; by right.
Qed.

Lemma combinations2_double {A : Type} (l : list A) :
  (2 * length (combinations2 l) = length l * (length l - 1))%nat.
Proof.
  induction l as [|x l IH]; cbn [combinations2 length]; [done|].
  rewrite length_app, length_map. destruct l as [|y l]; cbn [length] in *; nia.
Qed.

Lemma combinations2_length {A : Type} (l : list A) :
  length (combinations2 l) = (length l * (length l - 1) / 2)%nat.
Proof.
  rewrite <- combinations2_double, Nat.mul_comm. symmetry. by apply Nat.div_mul.
Qed.

Lemma combinations2_distinct {A : Type} (l : list A) a b :
  List.NoDup l → In (a, b) (combinations2 l) → a ≠ b.
Proof.
  induction 1 as [|x l Hx Hl IH]; cbn [combinations2]; [done|].
  rewrite in_app_iff, in_map_iff. intros [(y & [= <- <-] & Hy)|Hin]; [|by apply IH].
  intros ->. done.
Qed.

Lemma filter_none {A : Type} (p : A → bool) (l : list A) :
  (∀ x, In x l → p x = false) → List.filter p l = [].
Proof.
  induction l as [|x l IH]; intros Hall; [done|]. cbn [List.filter].
  rewrite (Hall x) by (by left). apply IH. intros y Hy. apply Hall. by right.
Qed.

Lemma count_once (l : list string) b :
  List.NoDup l → In b l → length (List.filter (String.eqb b) l) = 1%nat.
Proof.
  induction 1 as [|x l Hx Hl IH]; [done|]. cbn [List.filter].
  intros [->|Hin].
  - rewrite String.eqb_refl. cbn [length]. f_equal.
    rewrite filter_none; [done|]. intros y Hy. apply String.eqb_neq. by intros ->.
  - destruct (String.eqb_spec b x) as [->|]; [done|]. by apply IH.
Qed.

Lemma joins_first x b y : x ≠ b → joins x b (x, y) = String.eqb b y.
Proof.
  intros Hne. unfold joins. cbn [fst snd]. rewrite String.eqb_refl.
  apply String.eqb_neq in Hne. rewrite Hne. cbn.
  rewrite orb_false_r. apply String.eqb_sym.
Qed.

Lemma joins_sym a b p : joins a b p = joins b a p.
Proof. unfold joins. apply orb_comm. Qed.

Lemma joins_absent a b p : fst p ≠ a → fst p ≠ b → joins a b p = false.
Proof.
  intros Ha%String.eqb_neq Hb%String.eqb_neq. unfold joins. by rewrite Ha, Hb.
Qed.

Lemma joins_absent_l a b p : fst p ≠ a → snd p ≠ a → joins a b p = false.
Proof.
  intros Ha%String.eqb_neq Hb%String.eqb_neq. unfold joins.
  by rewrite Ha, Hb, andb_false_r.
Qed.

Lemma combinations2_first (l : list string) x b :
  List.NoDup (x :: l) → In b l →
  length (List.filter (joins x b) (combinations2 (x :: l))) = 1%nat.
Proof.
  intros Hnd Hb. inversion Hnd as [|? ? Hx Hl]; subst.
  assert (x ≠ b) by (by intros ->).
  cbn [combinations2]. rewrite List.filter_app, length_app.
  rewrite (filter_none _ (combinations2 l)).
  - cbn [length]. rewrite Nat.add_0_r.
    transitivity (length (List.filter (String.eqb b) l)); [|by apply count_once].
    clear -H. induction l as [|y l IH]; [done|]. cbn [map List.filter].
    rewrite joins_first by done. destruct (String.eqb b y); cbn [length]; by rewrite IH.
  - intros [c d] [Hc Hd]%combinations2_in. apply joins_absent_l; cbn; by intros ->.
Qed.

Lemma combinations2_joins_once (l : list string) a b :
  List.NoDup l → In a l → In b l → a ≠ b →
  length (List.filter (joins a b) (combinations2 l)) = 1%nat.
Proof.
  induction l as [|x l IH]; [done|]. intros Hnd Ha Hb Hab.
  destruct Ha as [->|Ha].
  - destruct Hb as [->|Hb]; [done|]. by apply combinations2_first.
  - destruct Hb as [->|Hb].
    + erewrite List.filter_ext; [by apply combinations2_first|].
      intros p. apply joins_sym.
    + inversion Hnd as [|? ? Hx Hl]; subst.
      cbn [combinations2]. rewrite List.filter_app, length_app.
      rewrite filter_none; [by apply IH|].
      intros p (y & <- & Hy)%in_map_iff. apply joins_absent; cbn; by intros ->.
Qed.

Lemma map_nth_seq {A : Type} (d : A) (l : list A) :
  map (fun i => nth i l d) (seq 0 (length l)) = l.
Proof.
  induction l as [|x l IH]; [done|]. cbn [length seq map nth].
  f_equal. rewrite <- seq_shift, map_map. exact IH.
Qed.

Lemma flat_map_after_map {A B C : Type} (f : B → list C) (g : A → B) l :
  flat_map f (map g l) = flat_map (fun x => f (g x)) l.
Proof. induction l as [|x l IH]; cbn; [done|by rewrite IH]. Qed.

(** [combinations2] lists the pairs of positions [i < j] in
    lexicographic order. *)
Lemma combinations2_by_index {A : Type} (d : A) (l : list A) :
  combinations2 l = pairs_by_index d l.
Proof.
  unfold pairs_by_index. induction l as [|x l IH]; [done|].
  cbn [combinations2 length seq flat_map]. f_equal.
  - replace (S (length l) - 1)%nat with (length l) by lia.
    rewrite <- seq_shift, map_map. cbn [nth].
    rewrite <- (map_nth_seq d l) at 1. by rewrite map_map.
  - rewrite IH, <- seq_shift, flat_map_after_map.
    apply flat_map_ext. intros i.
    replace (S (length l) - S (S i))%nat with (length l - S i)%nat by lia.
    rewrite <- (seq_shift _ (S i)), map_map. done.
Qed.

(** ** The batch grouper *)

Section Grouper.
Context {py : PyAst}.

Lemma bind_returns {A B : Type} (a : A) (f : A → outcome B) :
  (Returns a ≫= f) = f a.
Proof. reflexivity. Qed.

Lemma read_code_files_into_ok w file_paths (d : gmap string string) :
  Forall (readable w) file_paths →
  ∃ d', read_code_files_into w d file_paths = Returns d'
      ∧ (∀ k, is_Some (d !! k) → is_Some (d' !! k))
      ∧ (∀ k, In k file_paths → is_Some (d' !! k)).
Proof.
  intros Hall. revert d. induction Hall as [|p l [text Hp] _ IH]; intros d.
  - exists d. split; [done|]. split; [done|]. intros k [].
  - cbn [read_code_files_into]. rewrite Hp. cbn.
    destruct (IH (<[p := text]> d)) as (d' & E & Hkeep & Hin).
    exists d'. split; [exact E|]. split.
    + intros k Hk. apply Hkeep. rewrite lookup_insert_is_Some. 
      destruct (decide (p = k)); auto.
    + intros k [<-|Hk]; [|by apply Hin].
      apply Hkeep. rewrite lookup_insert_eq. by eexists.
Qed.

Lemma score_pairs_ok (d : gmap string string) acc pairs :
  (∀ a b, In (a, b) pairs → is_Some (d !! a) ∧ is_Some (d !! b)) →
  ∃ scored, score_pairs d acc pairs = Returns (acc ++ scored)
          ∧ map endpoints scored = pairs.
Proof.
  revert acc. induction pairs as [|[a b] rest IH]; intros acc Hin.
  - exists []. by rewrite app_nil_r.
  - cbn [score_pairs].
    destruct (Hin a b) as [[ta Ea] [tb Eb]]; [by left|].
    unfold dict_get. rewrite Ea, Eb, !bind_returns.
    destruct (compare_two_codes ta tb (group_is_code a)) as [pct cnt].
    destruct (IH (acc ++ [(a, b, pct)])) as (scored & E & Hmap).
    { intros a' b' H'. apply Hin. by right. }
    exists ((a, b, pct) :: scored). rewrite E, <- app_assoc. split; [done|].
    cbn [map endpoints fst]. by rewrite Hmap.
Qed.

(** The grouper returns the scored pairs, sorted; the pairs are scored
    in the order of [combinations2]. *)
Lemma group_similar_files_returns w file_paths :
  Forall (readable w) file_paths →
  ∃ scored,
    (file_contents ← read_code_files w file_paths;
     score_pairs file_contents [] (combinations2 file_paths)) = Returns scored
    ∧ group_similar_files w file_paths
      = Returns (sorted_reverse edge_percentage scored)
    ∧ map endpoints scored = combinations2 file_paths.
Proof.
  intros Hall. unfold group_similar_files, read_code_files.
  destruct (read_code_files_into_ok w file_paths ∅ Hall) as (d & -> & _ & Hin).
  rewrite !bind_returns.
  destruct (score_pairs_ok d [] (combinations2 file_paths)) as (scored & -> & Hmap).
  { intros a b [Ha Hb]%combinations2_in. split; by apply Hin. }
  rewrite bind_returns. by exists scored.
Qed.

(** C8.  Grouping completeness: over N distinct documents the grouper
    returns N (N - 1) / 2 edges; every two distinct documents are joined
    by exactly one edge, and no edge joins a document with itself. *)
Theorem grouping_completeness w file_paths :
  List.NoDup file_paths →
  Forall (readable w) file_paths →
  ∃ edges, group_similar_files w file_paths = Returns edges
    ∧ length edges = (length file_paths * (length file_paths - 1) / 2)%nat
    ∧ (∀ a b, In a file_paths → In b file_paths → a ≠ b →
         length (List.filter (fun e => joins a b (endpoints e)) edges) = 1%nat)
    ∧ (∀ e, In e edges →
         In (fst (endpoints e)) file_paths ∧ In (snd (endpoints e)) file_paths
         ∧ fst (endpoints e) ≠ snd (endpoints e)).
Proof.
  intros Hnd Hall.
  destruct (group_similar_files_returns w file_paths Hall) as (scored & _ & -> & Hmap).
  eexists; split; [reflexivity|].
  pose proof (sorted_reverse_perm edge_percentage scored) as Hperm.
  split; [|split].
  - rewrite (Permutation_length Hperm), <- (length_map endpoints), Hmap.
    apply combinations2_length.
  - intros a b Ha Hb Hab.
    rewrite (filter_length_perm _ _ _ Hperm).
    rewrite <- (combinations2_joins_once file_paths a b Hnd Ha Hb Hab), <- Hmap.
    clear. induction scored as [|e l IH]; [done|]. cbn [map List.filter].
    destruct (joins a b (endpoints e)); cbn [length]; by rewrite IH.
  - intros e He. apply (Permutation_in _ Hperm) in He.
    assert (Hin : In (endpoints e) (combinations2 file_paths))
      by (rewrite <- Hmap; by apply in_map).
    destruct (endpoints e) as [a b]. cbn [fst snd].
    destruct (combinations2_in _ _ _ Hin). split; [done|]. split; [done|].
    by eapply combinations2_distinct.
Qed.

(** C9.  Grouping order: the returned edges are those scored, in
    non-increasing order of percentage, and the edges of one percentage
    stand in the order in which they were scored, the lexicographic
    order of the pairs of positions in the list of documents. *)
Theorem grouping_order w file_paths :
  Forall (readable w) file_paths →
  ∃ scored edges,
    (file_contents ← read_code_files w file_paths;
     score_pairs file_contents [] (combinations2 file_paths)) = Returns scored
    ∧ group_similar_files w file_paths = Returns edges
    ∧ map endpoints scored = pairs_by_index EmptyString file_paths
    ∧ Permutation edges scored
    ∧ StronglySorted not_below edges
    ∧ (∀ q, List.filter (has_percentage q) edges
            = List.filter (has_percentage q) scored).
Proof.
  intros Hall.
  destruct (group_similar_files_returns w file_paths Hall) as (scored & E & -> & Hmap).
  exists scored. eexists. split; [exact E|]. split; [reflexivity|].
  split; [by rewrite <- combinations2_by_index|].
  split; [apply sorted_reverse_perm|].
  split; [apply (sorted_reverse_sorted edge_percentage)|].
  intros q. apply (sorted_reverse_stable edge_percentage).
Qed.

End Grouper.

(** ** The statements on the examples *)

(** C1 as stated fails: on the two texts of the scenario the structured
    comparison does not give one matched line, 50 percent and [x = 1]
    alone; it counts both candidate lines. *)
Lemma assignments_scenario_counterexample :
  ¬ ∃ r, @compare_files Examples.cpython Examples.assignments "a.py" "b.py" true
         = Returns r
       ∧ overlap_count r = 1%nat
       ∧ (overlap_percentage r == 50)%Q
       ∧ overlapping_lines r = ["x = 1"]%string.
Proof.
  intros (r & E & Hcount & _). vm_compute in E. injection E as <-. discriminate.
Qed.

Lemma assignments_scenario_witness :
  get_text_from_file Examples.assignments "a.py"
  = Returns (Examples.lines ["x = 1"; "y = 2"]%string)
  ∧ get_text_from_file Examples.assignments "b.py"
    = Returns (Examples.lines ["x = 1"; "z = 3"]%string)
  ∧ ∃ r, @compare_files Examples.cpython Examples.assignments "a.py" "b.py" true
         = Returns r
       ∧ overlap_count r = 2%nat
       ∧ total_lines (Examples.lines ["x = 1"; "z = 3"]%string) = 2%nat
       ∧ (overlap_percentage r == 100)%Q
       ∧ overlapping_lines r = ["x = 1"; "z = 3"]%string.
Proof.
  split; [reflexivity|]. split; [reflexivity|].
  apply (@assignments_scenario Examples.cpython Examples.assignments); reflexivity.
Defined.

Lemma compare_two_codes_agrees_witness :
  get_text_from_file Examples.assignments "a.py"
  = Returns (Examples.lines ["x = 1"; "y = 2"]%string)
  ∧ get_text_from_file Examples.assignments "b.py"
    = Returns (Examples.lines ["x = 1"; "z = 3"]%string)
  ∧ ∃ r, @compare_files Examples.cpython Examples.assignments "a.py" "b.py" true
         = Returns r
       ∧ @compare_two_codes Examples.cpython
           (Examples.lines ["x = 1"; "y = 2"]%string)
           (Examples.lines ["x = 1"; "z = 3"]%string) true
         = (overlap_percentage r, overlap_count r).
Proof.
  split; [reflexivity|]. split; [reflexivity|].
  apply (@compare_two_codes_agrees Examples.cpython Examples.assignments); reflexivity.
Defined.

(** C3 as stated fails: a text file that cannot be decoded makes
    extraction raise, and a PDF whose second page cannot be read yields
    the text of its first page, not the empty text. *)
Lemma extraction_counterexample :
  get_text_from_file Examples.damaged "notes.txt"
  = Raises (Exception "UnicodeDecodeError")
  ∧ fitz_open Examples.damaged "scan.pdf"
    = Returns [Returns "page one"%string; Raises (Exception "RuntimeError");
               Returns "page three"%string]
  ∧ get_text_from_file Examples.damaged "scan.pdf" = Returns "page one"%string.
Proof. repeat split. Qed.

Lemma container_extraction_witness :
  (file_ext "scan.pdf" = "pdf"%string ∨ file_ext "scan.pdf" = "docx"%string)
  ∧ ∃ text, get_text_from_file Examples.damaged "scan.pdf" = Returns text
    ∧ ((file_ext "scan.pdf" = "pdf"%string
        ∧ match fitz_open Examples.damaged "scan.pdf" with
          | Raises _ => text = EmptyString ∧ splitlines text = []
          | Returns pages => text = glue (before_failure pages)
          end)
       ∨ (file_ext "scan.pdf" = "docx"%string
          ∧ match docx_Document Examples.damaged "scan.pdf" with
            | Raises _ => text = EmptyString ∧ splitlines text = []
            | Returns paragraphs =>
                text = glue (map (fun t => t +:+ newline) (before_failure paragraphs))
            end)).
Proof.
  split; [left; reflexivity|].
  apply (container_extraction_never_raises Examples.damaged "scan.pdf").
  left; reflexivity.
Defined.

Lemma self_similarity_witness :
  get_text_from_file Examples.assignments "a.py"
  = Returns (Examples.lines ["x = 1"; "y = 2"]%string)
  ∧ Examples.lines ["x = 1"; "y = 2"]%string ≠ EmptyString
  ∧ ∃ r, @compare_files Examples.cpython Examples.assignments "a.py" "a.py" true
         = Returns r
       ∧ (overlap_percentage r == 100)%Q.
Proof.
  split; [reflexivity|]. split; [discriminate|].
  apply (@self_similarity Examples.cpython Examples.assignments "a.py" "a.py"
           (Examples.lines ["x = 1"; "y = 2"]%string) true);
    [reflexivity|reflexivity|discriminate].
Defined.

Lemma percentage_invariant_witness :
  get_text_from_file Examples.assignments "a.py"
  = Returns (Examples.lines ["x = 1"; "y = 2"]%string)
  ∧ get_text_from_file Examples.assignments "b.py"
    = Returns (Examples.lines ["x = 1"; "z = 3"]%string)
  ∧ get_text_from_file Examples.assignments "empty.py" = Returns EmptyString
  ∧ (∃ r, @compare_files Examples.cpython Examples.assignments "a.py" "b.py" true
          = Returns r
        ∧ (overlap_percentage r ==
           if (0 <? total_lines (Examples.lines ["x = 1"; "z = 3"]%string))%nat
           then 100 * inject_Z (Z.of_nat (overlap_count r))
                / inject_Z (Z.of_nat (total_lines (Examples.lines ["x = 1"; "z = 3"]%string)))
           else 0)%Q)
  ∧ (∃ r, @compare_files Examples.cpython Examples.assignments "a.py" "empty.py" true
          = Returns r
        ∧ (overlap_percentage r == 0)%Q ∧ overlap_count r = 0%nat).
Proof.
  split; [reflexivity|]. split; [reflexivity|]. split; [reflexivity|].
  apply (@percentage_invariant Examples.cpython Examples.assignments
           "a.py" "b.py" "empty.py"
           (Examples.lines ["x = 1"; "y = 2"]%string)
           (Examples.lines ["x = 1"; "z = 3"]%string) true); reflexivity.
Defined.


Lemma batch_readable :
  Forall (readable Examples.batch) ["a.txt"; "b.txt"; "c.txt"]%string.
Proof. repeat constructor; eexists; reflexivity. Defined.

Lemma batch_distinct : List.NoDup ["a.txt"; "b.txt"; "c.txt"]%string.
Proof.
  repeat constructor; cbn; intros H; repeat destruct H as [H|H]; discriminate || done.
Defined.

Lemma grouping_completeness_witness :
  List.NoDup ["a.txt"; "b.txt"; "c.txt"]%string
  ∧ Forall (readable Examples.batch) ["a.txt"; "b.txt"; "c.txt"]%string
  ∧ ∃ edges,
      @group_similar_files Examples.cpython Examples.batch
        ["a.txt"; "b.txt"; "c.txt"]%string = Returns edges
      ∧ length edges = 3%nat
      ∧ (∀ a b, In a ["a.txt"; "b.txt"; "c.txt"]%string →
           In b ["a.txt"; "b.txt"; "c.txt"]%string → a ≠ b →
           length (List.filter (fun e => joins a b (endpoints e)) edges) = 1%nat)
      ∧ (∀ e, In e edges →
           In (fst (endpoints e)) ["a.txt"; "b.txt"; "c.txt"]%string
           ∧ In (snd (endpoints e)) ["a.txt"; "b.txt"; "c.txt"]%string
           ∧ fst (endpoints e) ≠ snd (endpoints e)).
Proof.
  split; [exact batch_distinct|]. split; [exact batch_readable|].
  exact (@grouping_completeness Examples.cpython Examples.batch
           ["a.txt"; "b.txt"; "c.txt"]%string batch_distinct batch_readable).
Defined.

Lemma grouping_order_witness :
  Forall (readable Examples.batch) ["a.txt"; "b.txt"; "c.txt"]%string
  ∧ ∃ scored edges,
      (file_contents ← read_code_files Examples.batch ["a.txt"; "b.txt"; "c.txt"]%string;
       @score_pairs Examples.cpython file_contents []
         (combinations2 ["a.txt"; "b.txt"; "c.txt"]%string)) = Returns scored
      ∧ @group_similar_files Examples.cpython Examples.batch
          ["a.txt"; "b.txt"; "c.txt"]%string = Returns edges
      ∧ map endpoints scored
        = [("a.txt", "b.txt"); ("a.txt", "c.txt"); ("b.txt", "c.txt")]%string
      ∧ Permutation edges scored
      ∧ StronglySorted not_below edges
      ∧ (∀ q, List.filter (has_percentage q) edges
              = List.filter (has_percentage q) scored).
Proof.
  split; [exact batch_readable|].
  exact (@grouping_order Examples.cpython Examples.batch
           ["a.txt"; "b.txt"; "c.txt"]%string batch_readable).
Defined.

(** The grouper on the batch of the examples: the pair scored second
    ties with the first and keeps its place behind it. *)
Example group_batch :
  @group_similar_files Examples.cpython Examples.batch ["a.txt"; "b.txt"; "c.txt"]%string
  = Returns [("a.txt", "b.txt", 100 # 2); ("b.txt", "c.txt", 100 # 2);
             ("a.txt", "c.txt", 0 # 2)]%string.
Proof. vm_compute. reflexivity. Qed.

(** * Further properties *)

(** ** What a comparison matches *)

Section Matching.
Context {py : PyAst}.

Lemma ast_hash_truthy line h : get_ast_hash line = Some h → truthy (Some h) = true.
Proof.
  unfold get_ast_hash. destruct (ast_parse line) as [tree|]; [|done].
  destruct (ast_dump (redact tree)) as [dumped|]; [|done].
  intros [= <-]. apply md5_hex_truthy.
Qed.

Lemma add_line_fingerprints is_code (s : gset string) line :
  add_line is_code s line = list_to_set (fingerprints is_code line) ∪ s.
Proof.
  unfold add_line, fingerprints, line_hashes, get_tokens, get_text_hash, set_add.
  destruct is_code; rewrite (md5_hex_truthy (mask_words line)).
  - destruct (get_ast_hash line) as [h|] eqn:E; cbn [option_list option_rect app];
      rewrite ?(ast_hash_truthy _ _ E), !list_to_set_cons, list_to_set_nil;
      apply set_eq; intros y;
      rewrite !elem_of_union, !elem_of_singleton, elem_of_empty; tauto.
  - cbn [option_list option_rect app]. rewrite !list_to_set_cons, list_to_set_nil.
    apply set_eq. intros y.
    rewrite !elem_of_union, !elem_of_singleton, elem_of_empty. tauto.
Qed.

Lemma add_fold_fingerprints is_code l (s : gset string) h :
  h ∈ fold_left (add_line is_code) l s
  ↔ h ∈ s ∨ ∃ line, In line l ∧ In h (fingerprints is_code line).
Proof.
  revert s. induction l as [|x l IH]; intros s; cbn [fold_left].
  - split; [by left|]. intros [?|(? & [] & _)]. done.
  - rewrite IH, add_line_fingerprints, elem_of_union, elem_of_list_to_set,
      list_elem_of_In.
    split.
    + intros [[Hx|Hs]|(line & Hin & Hh)].
      * right. exists x. split; [by left|done].
      * by left.
      * right. exists line. split; [by right|done].
    + intros [Hs|(line & [<-|Hin] & Hh)].
      * left. by right.
      * left. by left.
      * right. by exists line.
Qed.

Lemma line_matches_fingerprints is_code (tbl : gmap string string) line :
  line_matches is_code tbl line = true
  ↔ ∃ h, In h (fingerprints is_code line) ∧ h ∈ dom tbl.
Proof.
  unfold line_matches, fingerprints, line_hashes, get_tokens, get_text_hash.
  destruct is_code; rewrite !dict_has_dom.
  - rewrite (md5_hex_truthy (mask_words line)), andb_true_l, orb_true_iff.
    cbn [set_has]. rewrite bool_decide_eq_true.
    destruct (get_ast_hash line) as [a|]; cbn [set_has option_list option_rect app].
    + rewrite bool_decide_eq_true. split.
      * intros [Ha|Ht]; eexists; (split; [|eassumption]); cbn; auto.
      * intros (h & [<-|[<-|[]]] & Hh); auto.
    + split.
      * intros [[=]|Ht]. eexists. split; [|eassumption]. by left.
      * intros (h & [<-|[]] & Hh). by right.
  - rewrite orb_false_r. cbn [set_has option_list option_rect app]. rewrite bool_decide_eq_true.
    split.
    + intros Ht. eexists. split; [|eassumption]. by left.
    + by intros (h & [<-|[]] & Hh).
Qed.

(** A candidate line is matched when it shares a fingerprint with a
    line of the reference. *)
Lemma table_matches is_code lines1 line' :
  line_matches is_code (fold_left (index_line is_code) lines1 ∅) line' = true
  ↔ ∃ line h, In line lines1
      ∧ In h (fingerprints is_code line) ∧ In h (fingerprints is_code line').
Proof.
  rewrite line_matches_fingerprints. setoid_rewrite dom_index_fold.
  setoid_rewrite add_fold_fingerprints. rewrite dom_empty_L. split.
  - intros (h & Hh & [Hs|(line & Hin & Hl)]); [by apply elem_of_empty in Hs|].
    by exists line, h.
  - intros (line & h & Hin & Hl & Hh). exists h. split; [done|]. right. by exists line.
Qed.

Lemma percentage_mono n m t : (n ≤ m)%nat → (percentage n t <= percentage m t)%Q.
Proof.
  intros Hnm. unfold percentage. destruct (Nat.ltb_spec 0 t) as [Ht|]; [|apply Qle_refl].
  apply Qmult_le_compat_r; [|done]. unfold Qdiv. apply Qmult_le_compat_r.
  - rewrite <- Zle_Qle. lia.
  - apply Qinv_le_0_compat. change 0%Q with (inject_Z 0). rewrite <- Zle_Qle. lia.
Qed.

Lemma percentage_nonneg n t : (0 <= percentage n t)%Q.
Proof.
  unfold percentage. destruct (0 <? t)%nat; [|apply Qle_refl].
  assert (Hpos : ∀ k, (0 <= inject_Z (Z.of_nat k))%Q).
  { intros k. change 0%Q with (inject_Z 0). rewrite <- Zle_Qle. lia. }
  apply Qmult_le_0_compat; [|done].
  apply Qmult_le_0_compat; [apply Hpos|]. apply Qinv_le_0_compat, Hpos.
Qed.

(** X1.  The matched lines of a comparison are the candidate lines that
    share a fingerprint with a line of the reference: the free-text
    fingerprint for the free-text class, the token-shape fingerprint or
    a structural fingerprint for the structured class. *)
Theorem matched_lines_share_fingerprint
    w file1 file2 content1 content2 is_code :
  get_text_from_file w file1 = Returns content1 →
  get_text_from_file w file2 = Returns content2 →
  ∃ r, compare_files w file1 file2 is_code = Returns r
     ∧ ∀ line', In line' (overlapping_lines r)
         ↔ In line' (splitlines content2)
           ∧ ∃ line h, In line (splitlines content1)
               ∧ In h (fingerprints is_code line)
               ∧ In h (fingerprints is_code line').
Proof.
  intros E1 E2. rewrite (compare_files_returns _ _ _ _ _ _ E1 E2).
  eexists; split; [reflexivity|]. intros line'.
  rewrite compare_contents_matches. cbn [overlapping_lines].
  by rewrite filter_In, table_matches.
Qed.

(** X2.  The count of a result is at most the line count of the
    candidate, and the percentage lies between 0 and 100. *)
Theorem result_within_bounds w file1 file2 content1 content2 is_code :
  get_text_from_file w file1 = Returns content1 →
  get_text_from_file w file2 = Returns content2 →
  ∃ r, compare_files w file1 file2 is_code = Returns r
     ∧ (overlap_count r ≤ total_lines content2)%nat
     ∧ (0 <= overlap_percentage r)%Q
     ∧ (overlap_percentage r <= 100)%Q.
Proof.
  intros E1 E2. rewrite (compare_files_returns _ _ _ _ _ _ E1 E2).
  eexists; split; [reflexivity|].
  rewrite compare_contents_matches. cbn [overlap_count overlap_percentage].
  set (matched := List.filter _ _).
  assert (Hle : (length matched ≤ total_lines content2)%nat).
  { unfold matched, total_lines. apply sublist_length.
    rewrite <- (filter_all (fun _ => true) (splitlines content2)) at 2 by done.
    by apply filter_sublist. }
  split; [exact Hle|]. split.
  - apply percentage_nonneg.
  - destruct (Nat.ltb_spec 0 (total_lines content2)) as [Ht|Ht].
    + rewrite <- (percentage_all _ Ht). by apply percentage_mono.
    + unfold percentage. destruct (Nat.ltb_spec 0 (total_lines content2)); [lia|done].
Qed.

(** X3.  When every line of the candidate has the masked form of some
    line of the reference (the same line, or one with other words or
    numbers between the same separators), all candidate lines are
    matched, for either class: the count is the line count and the
    percentage is 100 unless the candidate has no line. *)
Theorem masked_copy_matches_fully w file1 file2 content1 content2 is_code :
  get_text_from_file w file1 = Returns content1 →
  get_text_from_file w file2 = Returns content2 →
  (∀ line', In line' (splitlines content2) →
     ∃ line, In line (splitlines content1) ∧ mask_words line' = mask_words line) →
  ∃ r, compare_files w file1 file2 is_code = Returns r
     ∧ overlapping_lines r = splitlines content2
     ∧ overlap_count r = total_lines content2
     ∧ (overlap_percentage r == if (0 <? total_lines content2)%nat then 100 else 0)%Q.
Proof.
  intros E1 E2 Hcopy. rewrite (compare_files_returns _ _ _ _ _ _ E1 E2).
  eexists; split; [reflexivity|].
  rewrite compare_contents_matches. cbn zeta.
  rewrite filter_all.
  - cbn [overlapping_lines overlap_count overlap_percentage].
    split; [done|]. split; [done|]. fold (total_lines content2).
    destruct (Nat.ltb_spec 0 (total_lines content2)) as [Ht|Ht].
    + by apply percentage_all.
    + unfold percentage. destruct (Nat.ltb_spec 0 (total_lines content2)); [lia|done].
  - intros line' Hin. destruct (Hcopy line' Hin) as (line & Hl & E).
    by apply (masked_line_matches is_code _ line).
Qed.

(** X4.  A reference with more lines matches no less: when every line
    of one reference is a line of another, the lines matched against the
    first are matched against the second, in the same order, and the
    count and the percentage do not go down. *)
Theorem larger_reference_matches_more
    w file1 file1' file2 content1 content1' content2 is_code :
  get_text_from_file w file1 = Returns content1 →
  get_text_from_file w file1' = Returns content1' →
  get_text_from_file w file2 = Returns content2 →
  (∀ line, In line (splitlines content1) → In line (splitlines content1')) →
  ∃ r r', compare_files w file1 file2 is_code = Returns r
     ∧ compare_files w file1' file2 is_code = Returns r'
     ∧ sublist (overlapping_lines r) (overlapping_lines r')
     ∧ (overlap_count r ≤ overlap_count r')%nat
     ∧ (overlap_percentage r <= overlap_percentage r')%Q.
Proof.
  intros E1 E1' E2 Hsub.
  rewrite (compare_files_returns _ _ _ _ _ _ E1 E2),
    (compare_files_returns _ _ _ _ _ _ E1' E2).
  eexists _, _. split; [reflexivity|]. split; [reflexivity|].
  rewrite !compare_contents_matches.
  cbn [overlapping_lines overlap_count overlap_percentage].
  assert (Hs : sublist
    (List.filter (line_matches is_code
       (fold_left (index_line is_code) (splitlines content1) ∅)) (splitlines content2))
    (List.filter (line_matches is_code
       (fold_left (index_line is_code) (splitlines content1') ∅)) (splitlines content2))).
  { apply filter_sublist. intros line'. rewrite !table_matches.
    intros (line & h & Hin & Hl & Hl'). exists line, h. auto. }
  split; [exact Hs|]. apply sublist_length in Hs.
  split; [exact Hs|]. by apply percentage_mono.
Qed.

(** X5.  The result depends on the reference only through its set of
    lines: two references with the same lines, in any order and any
    number of times, give the same result. *)
Theorem reference_order_is_irrelevant
    w file1 file1' file2 content1 content1' content2 is_code :
  get_text_from_file w file1 = Returns content1 →
  get_text_from_file w file1' = Returns content1' →
  get_text_from_file w file2 = Returns content2 →
  (∀ line, In line (splitlines content1) ↔ In line (splitlines content1')) →
  compare_files w file1 file2 is_code = compare_files w file1' file2 is_code.
Proof.
  intros E1 E1' E2 Hsame.
  rewrite (compare_files_returns _ _ _ _ _ _ E1 E2),
    (compare_files_returns _ _ _ _ _ _ E1' E2).
  f_equal. rewrite !compare_contents_matches. cbn zeta.
  rewrite (List.filter_ext
    (line_matches is_code (fold_left (index_line is_code) (splitlines content1) ∅))
    (line_matches is_code (fold_left (index_line is_code) (splitlines content1') ∅)));
    [done|].
  intros line'. apply eq_true_iff_eq. rewrite !table_matches.
  split; intros (line & h & Hin & Hl & Hl'); exists line, h;
    (split; [by apply Hsame|done]).
Qed.

(** X6.  Against the empty reference nothing is matched: the result has
    no line, count 0 and percentage 0, whatever the candidate. *)
Theorem empty_reference_matches_nothing w file1 file2 content2 is_code :
  get_text_from_file w file1 = Returns EmptyString →
  get_text_from_file w file2 = Returns content2 →
  ∃ r, compare_files w file1 file2 is_code = Returns r
     ∧ overlapping_lines r = []
     ∧ overlap_count r = 0%nat
     ∧ (overlap_percentage r == 0)%Q.
Proof.
  intros E1 E2. rewrite (compare_files_returns _ _ _ _ _ _ E1 E2).
  eexists; split; [reflexivity|].
  rewrite compare_contents_matches. cbn zeta.
  rewrite filter_none.
  - cbn [overlapping_lines overlap_count overlap_percentage length].
    split; [done|]. split; [done|]. unfold percentage.
    destruct (0 <? total_lines content2)%nat; done.
  - intros line' _. apply not_true_is_false. rewrite table_matches.
    by intros (line & h & [] & _).
Qed.

Lemma container_readable w file_path : container file_path → readable w file_path.
Proof.
  intros [E|E]; unfold readable, get_text_from_file; rewrite E; by eexists.
Qed.

Lemma unopened_empty w file_path :
  unopened w file_path → get_text_from_file w file_path = Returns EmptyString.
Proof.
  intros [[E [e He]]|[E [e He]]]; unfold get_text_from_file; rewrite E;
    cbn [String.eqb Ascii.eqb Bool.eqb];
    unfold extract_text_from_pdf, extract_text_from_docx; by rewrite He.
Qed.

(** X7.  Comparing two PDF or DOCX files never raises, whatever the
    libraries answer for them. *)
Theorem containers_compare_without_error w file1 file2 is_code :
  container file1 → container file2 →
  ∃ r, compare_files w file1 file2 is_code = Returns r.
Proof.
  intros [c1 E1]%(container_readable w) [c2 E2]%(container_readable w).
  rewrite (compare_files_returns _ _ _ _ _ _ E1 E2). by eexists.
Qed.

(** X8.  A PDF or DOCX that cannot be opened counts as an empty text:
    with it as the reference or as the candidate the comparison returns
    count 0, percentage 0 and no matched line. *)
Theorem unopened_container_scores_zero w file1 file2 is_code :
  readable w file1 → readable w file2 →
  unopened w file1 ∨ unopened w file2 →
  ∃ r, compare_files w file1 file2 is_code = Returns r
     ∧ overlapping_lines r = []
     ∧ overlap_count r = 0%nat
     ∧ (overlap_percentage r == 0)%Q.
Proof.
  intros [c1 E1] [c2 E2] [Hu|Hu].
  - rewrite (unopened_empty _ _ Hu) in E1. injection E1 as <-.
    rewrite (compare_files_returns _ _ _ _ _ _ (unopened_empty _ _ Hu) E2).
    eexists; split; [reflexivity|].
    rewrite compare_contents_matches. cbn zeta. rewrite filter_none.
    + cbn [overlapping_lines overlap_count overlap_percentage length].
      split; [done|]. split; [done|]. unfold percentage.
      destruct (0 <? total_lines c2)%nat; done.
    + intros line' _. apply not_true_is_false. rewrite table_matches.
      by intros (line & h & [] & _).
  - rewrite (unopened_empty _ _ Hu) in E2. injection E2 as <-.
    rewrite (compare_files_returns _ _ _ _ _ _ E1 (unopened_empty _ _ Hu)).
    eexists; split; [reflexivity|].
    rewrite compare_contents_matches. done.
Qed.

End Matching.

(** X9.  The free-text class never consults the parser: with any two
    parsers the full and the scalar comparator return the same. *)
Theorem free_text_ignores_parser (py1 py2 : PyAst) w file1 file2 code1 code2 :
  @compare_files py1 w file1 file2 false = @compare_files py2 w file1 file2 false
  ∧ @compare_two_codes py1 code1 code2 false = @compare_two_codes py2 code1 code2 false.
Proof. split; reflexivity. Qed.

(** ** Fingerprints *)








Lemma mask_segments_shape la lb :
  well_cut la = true → well_cut lb = true →
  mask_segments la = mask_segments lb →
  map mask_segment la = map mask_segment lb.
Proof.
  revert lb. induction la as [|a la IH]; intros [|b lb] Ha Hb E.
  - done.
  - destruct b; discriminate.
  - destruct a; discriminate.
  - destruct a as [w|c], b as [w'|c']; cbn [well_cut] in Ha, Hb;
      repeat match goal with H : _ && _ = true |- _ => apply andb_true_iff in H as [? ?] end;
      cbn [map mask_segment]; cbn [mask_segments fold_right mask_segment] in E.
    + f_equal. apply IH; [done|done|]. by apply (String.app_inj TOKEN) in E.
    + injection E as <- _. done.
    + injection E as -> _. done.
    + injection E as -> E. f_equal. by apply IH.
Qed.

Lemma mask_segments_glue l : mask_segments l = glue (map mask_segment l).
Proof.
  induction l as [|x l IH]; [done|].
  cbn [mask_segments fold_right map glue]. fold (mask_segments l). by rewrite IH.
Qed.

(** X11.  Masking keeps exactly the separators: two lines are masked to
    the same text if and only if they have the same characters outside
    their word runs, in the same order, with a word run at the same
    places; then they have the same [get_tokens] and [get_text_hash]. *)
Theorem mask_words_keeps_separators a b :
  (mask_words a = mask_words b
   ↔ map mask_segment (segments a) = map mask_segment (segments b))
  ∧ (mask_words a = mask_words b → get_tokens a = get_tokens b)
  ∧ (mask_words a = mask_words b → get_text_hash a = get_text_hash b).
Proof.
  split; [|split; unfold get_tokens, get_text_hash; by intros ->].
  rewrite !mask_words_segments. split.
  - apply mask_segments_shape; apply segments_well_cut.
  - intros E. by rewrite !mask_segments_glue, E.
Qed.

(** ** Reading and grouping a batch *)

Section Batch.
Context {py : PyAst}.

Lemma read_code_files_into_lookup w file_paths (d : gmap string string) :
  Forall (readable w) file_paths →
  ∃ d', read_code_files_into w d file_paths = Returns d'
      ∧ ∀ k text, d' !! k = Some text
          ↔ (In k file_paths ∧ get_text_from_file w k = Returns text)
            ∨ (¬ In k file_paths ∧ d !! k = Some text).
Proof.
  intros Hall. revert d. induction Hall as [|p l [t Hp] _ IH]; intros d.
  - exists d. split; [done|]. intros k text. split.
    + intros E. right. split; [intros []|done].
    + intros [[[] _]|[_ E]]. done.
  - cbn [read_code_files_into]. rewrite Hp, bind_returns.
    destruct (IH (<[p := t]> d)) as (d' & -> & Hd'). exists d'. split; [done|].
    intros k text. rewrite Hd'. cbn [In].
    destruct (decide (p = k)) as [<-|Hne].
    + rewrite lookup_insert_eq. split.
      * intros [[Hin E]|[Hnin [= <-]]]; left; auto.
      * intros [[_ E]|[Hnin _]]; [|destruct Hnin; by left].
        destruct (in_dec string_dec p l) as [Hin|Hnin]; [by left|].
        right. split; [done|]. congruence.
    + rewrite lookup_insert_ne by done. split.
      * intros [[Hin E]|[Hnin E]]; [left; auto|]. right. split; [|done].
        intros [?|?]; done.
      * intros [[[?|Hin] E]|[Hnin E]]; [done|by left|]. right. split; [|done].
        intros Hin. apply Hnin. by right.
Qed.

Lemma read_code_files_lookup w file_paths :
  Forall (readable w) file_paths →
  ∃ d, read_code_files w file_paths = Returns d
    ∧ ∀ k text, d !! k = Some text
        ↔ In k file_paths ∧ get_text_from_file w k = Returns text.
Proof.
  intros Hall. destruct (read_code_files_into_lookup w file_paths ∅ Hall) as (d & E & Hd).
  exists d. split; [exact E|]. intros k text. rewrite Hd, lookup_empty. split.
  - intros [?|[_ ?]]; done.
  - intros ?. by left.
Qed.

(** X12.  When every file of the list can be read, [read_code_files]
    returns a dict whose keys are the paths of the list, each with the
    text of its file. *)
Theorem read_code_files_holds_every_text w file_paths :
  Forall (readable w) file_paths →
  ∃ code_contents, read_code_files w file_paths = Returns code_contents
    ∧ ∀ file_path text, code_contents !! file_path = Some text
        ↔ In file_path file_paths ∧ get_text_from_file w file_path = Returns text.
Proof. apply read_code_files_lookup. Qed.

Lemma read_code_files_into_raises w file_paths (d : gmap string string) e :
  read_code_files_into w d file_paths = Raises e
  ↔ ∃ before file_path after,
      file_paths = before ++ file_path :: after
      ∧ Forall (readable w) before
      ∧ get_text_from_file w file_path = Raises e.
Proof.
  revert d. induction file_paths as [|p l IH]; intros d; cbn [read_code_files_into].
  - split; [done|]. intros ([|??] & ? & ? & ? & _); done.
  - destruct (get_text_from_file w p) as [t|e'] eqn:Hp.
    + rewrite bind_returns, IH. split.
      * intros (before & q & after & -> & Hb & Hq).
        exists (p :: before), q, after. split; [done|]. split; [|done].
        constructor; [by exists t|done].
      * intros ([|p' before] & q & after & Hl & Hb & Hq).
        -- injection Hl as <- _. congruence.
        -- injection Hl as <- ->. inversion Hb; subst. by exists before, q, after.
    + split.
      * intros [= <-]. by exists [], p, l.
      * intros ([|p' before] & q & after & Hl & Hb & Hq).
        -- injection Hl as <- _. cbn. congruence.
        -- injection Hl as <- _. inversion Hb as [|?? [t Ht] ?]; subst. congruence.
Qed.

Lemma read_code_files_returns_readable w file_paths d :
  read_code_files w file_paths = Returns d → Forall (readable w) file_paths.
Proof.
  unfold read_code_files. generalize (∅ : gmap string string). intros d0. revert d0.
  induction file_paths as [|p l IH]; intros d0; [by constructor|].
  cbn [read_code_files_into].
  destruct (get_text_from_file w p) as [t|e] eqn:Hp; [|done].
  rewrite bind_returns. intros E. constructor; [by exists t|by eapply IH].
Qed.

(** X13.  The grouper raises exactly when a file of the list cannot be
    read, and then with the exception of the first such file; scoring
    the pairs and sorting never raise. *)
Theorem group_similar_files_raises w file_paths e :
  group_similar_files w file_paths = Raises e
  ↔ ∃ before file_path after,
      file_paths = before ++ file_path :: after
      ∧ Forall (readable w) before
      ∧ get_text_from_file w file_path = Raises e.
Proof.
  rewrite <- (read_code_files_into_raises w file_paths ∅ e).
  fold (read_code_files w file_paths).
  destruct (read_code_files w file_paths) as [d|e'] eqn:E.
  - split; [|done]. intros Hraise. exfalso.
    pose proof (read_code_files_returns_readable _ _ _ E) as Hall.
    destruct (group_similar_files_returns w file_paths Hall) as (scored & _ & Hg & _).
    congruence.
  - unfold group_similar_files. rewrite E. split; intros [= <-]; reflexivity.
Qed.

Lemma score_pairs_values (d : gmap string string) acc pairs :
  (∀ a b, In (a, b) pairs → is_Some (d !! a) ∧ is_Some (d !! b)) →
  ∃ scored, score_pairs d acc pairs = Returns (acc ++ scored)
    ∧ ∀ a b q, In (a, b, q) scored →
        ∃ code1 code2, d !! a = Some code1 ∧ d !! b = Some code2
          ∧ q = fst (compare_two_codes code1 code2 (group_is_code a)).
Proof.
  revert acc. induction pairs as [|[a b] rest IH]; intros acc Hin.
  - exists []. rewrite app_nil_r. split; [done|]. intros ??? [].
  - cbn [score_pairs].
    destruct (Hin a b) as [[ta Ea] [tb Eb]]; [by left|].
    unfold dict_get. rewrite Ea, Eb, !bind_returns.
    destruct (compare_two_codes ta tb (group_is_code a)) as [pct cnt] eqn:Ec.
    destruct (IH (acc ++ [(a, b, pct)])) as (scored & E & Hval).
    { intros a' b' H'. apply Hin. by right. }
    exists ((a, b, pct) :: scored). rewrite E, <- app_assoc. split; [done|].
    intros a' b' q [[= <- <- <-]|Hq]; [|by apply Hval].
    exists ta, tb. by rewrite Ec.
Qed.

(** X14.  Every edge the grouper returns carries the percentage that
    [compare_two_codes] gives for the texts of its two files, the first
    as the reference, with the content class read off the extension of
    the first file. *)
Theorem edges_carry_pairwise_scores w file_paths :
  Forall (readable w) file_paths →
  ∃ edges, group_similar_files w file_paths = Returns edges
    ∧ ∀ file1 file2 similarity_percentage,
        In (file1, file2, similarity_percentage) edges →
        ∃ code1 code2,
          get_text_from_file w file1 = Returns code1
          ∧ get_text_from_file w file2 = Returns code2
          ∧ similarity_percentage
            = fst (compare_two_codes code1 code2 (group_is_code file1)).
Proof.
  intros Hall. unfold group_similar_files.
  destruct (read_code_files_lookup w file_paths Hall) as (d & -> & Hd).
  rewrite bind_returns.
  destruct (score_pairs_values d [] (combinations2 file_paths)) as (scored & -> & Hval).
  { intros a b [Ha Hb]%combinations2_in.
    rewrite Forall_forall in Hall.
    destruct (Hall a) as [ta Hta]; [by apply list_elem_of_In|].
    destruct (Hall b) as [tb Htb]; [by apply list_elem_of_In|].
    split; eexists; apply Hd; eauto. }
  rewrite bind_returns. eexists; split; [reflexivity|].
  intros a b q Hin.
  apply (Permutation_in _ (sorted_reverse_perm edge_percentage scored)) in Hin.
  destruct (Hval a b q Hin) as (ta & tb & Ea & Eb & Eq).
  exists ta, tb. split; [by apply Hd|]. split; [by apply Hd|done].
Qed.

End Batch.

(** ** Validation *)

Lemma extensions_elem (file_paths : list string) ext :
  ext ∈ (list_to_set (map file_ext file_paths) : gset string)
  ↔ ∃ file_path, In file_path file_paths ∧ file_ext file_path = ext.
Proof.
  rewrite elem_of_list_to_set, list_elem_of_In, in_map_iff.
  split; intros (p & ? & ?); by exists p.
Qed.

Lemma one_extension_iff file_paths :
  validate_all_same_language file_paths = Passes
  ↔ ∀ p q, In p file_paths → In q file_paths → file_ext p = file_ext q.
Proof.
  unfold validate_all_same_language.
  set (extensions := list_to_set (map file_ext file_paths) : gset string).
  destruct (Nat.ltb_spec 1 (size extensions)) as [Hgt|Hle]; split; try done.
  - intros Hsame. exfalso.
    destruct file_paths as [|p0 l].
    + unfold extensions in Hgt. cbn in Hgt. rewrite size_empty in Hgt. lia.
    + assert (Hsub : extensions ⊆ {[ file_ext p0 ]}).
      { intros ext (p & Hp & <-)%extensions_elem. apply elem_of_singleton.
        apply Hsame; [done|by left]. }
      apply subseteq_size in Hsub. rewrite size_singleton in Hsub. lia.
  - intros _ p q Hp Hq.
    assert (Hpe : file_ext p ∈ extensions) by (apply extensions_elem; by exists p).
    assert (Hqe : file_ext q ∈ extensions) by (apply extensions_elem; by exists q).
    destruct (size extensions) as [|[|n]] eqn:Hsize; [| |lia].
    + apply size_empty_inv in Hsize. by apply Hsize in Hpe.
    + by apply (size_singleton_inv extensions).
Qed.

(** X15.  [validate_all_same_language] passes exactly when all paths
    have one extension, compared in lower case; the empty list passes,
    and whether the extension is a supported one plays no part. *)
Theorem same_language_means_one_extension file_paths :
  validate_all_same_language file_paths = Passes
  ↔ ∀ p q, In p file_paths → In q file_paths → file_ext p = file_ext q.
Proof. apply one_extension_iff. Qed.

Lemma validate_paths_passes field paths :
  validate_paths field paths = Passes ↔ Forall (fun path => is_str path = true) paths.
Proof.
  induction paths as [|path rest IH]; cbn [validate_paths].
  - split; [by constructor|done].
  - destruct (is_str path) eqn:E; cbn [negb].
    + rewrite IH. split; [by constructor|by inversion 1].
    + split; [done|]. inversion 1. congruence.
Qed.

Lemma validate_field_passes data field :
  validate_field data field = Passes
  ↔ ∃ value, data !! field = Some value ∧ well_typed field value.
Proof.
  unfold validate_field, well_typed. destruct (data !! field) as [value|].
  - destruct (String.eqb field "file_paths").
    + destruct value as [s|paths|].
      * split; [done|]. by intros (? & [= <-] & ? & ? & _).
      * rewrite validate_paths_passes. split.
        -- intros Hall. exists (PyList paths). split; [done|]. by exists paths.
        -- by intros (? & [= <-] & ? & [= <-] & ?).
      * split; [done|]. by intros (? & [= <-] & ? & ? & _).
    + destruct (is_str value) eqn:E; cbn [negb].
      * split; [|done]. intros _. by exists value.
      * split; [done|]. intros (? & [= <-] & ?). congruence.
  - split; [done|]. by intros (? & ? & _).
Qed.

(** X16.  [validate_request_data] passes exactly when every required
    field is in the data with a value of its type: a list of strings
    for [file_paths], a string for any other field. *)
Theorem request_data_passes data required_fields :
  validate_request_data data required_fields = Passes
  ↔ ∀ field, In field required_fields →
      ∃ value, data !! field = Some value ∧ well_typed field value.
Proof.
  induction required_fields as [|field rest IH]; cbn [validate_request_data].
  - split; [by intros _ ? []|done].
  - destruct (validate_field data field) as [|message] eqn:E.
    + rewrite IH. apply validate_field_passes in E. split.
      * intros Hrest f [<-|Hf]; [done|by apply Hrest].
      * intros Hall f Hf. apply Hall. by right.
    + split; [done|]. intros Hall.
      assert (Hp : validate_field data field = Passes)
        by (apply validate_field_passes, Hall; by left).
      congruence.
Qed.

(** X17.  A batch that the three validators of the [/group] route
    accept has one extension, which is a key of [SUPPORTED_LANGUAGES],
    and every one of its files exists. *)
Theorem validated_batch_has_one_language path_exists file_paths file_path :
  (∀ p, In p file_paths →
     validate_file_path path_exists p = Passes ∧ validate_file_extension p = Passes) →
  validate_all_same_language file_paths = Passes →
  In file_path file_paths →
  ∃ language, SUPPORTED_LANGUAGES !! file_ext file_path = Some language
    ∧ ∀ p, In p file_paths →
        path_exists p = true ∧ file_ext p = file_ext file_path.
Proof.
  intros Heach Hsame Hin. rewrite one_extension_iff in Hsame.
  destruct (Heach file_path Hin) as [_ Hext].
  unfold validate_file_extension in Hext. fold (file_ext file_path) in Hext.
  destruct (SUPPORTED_LANGUAGES !! file_ext file_path) as [language|] eqn:E; [|done].
  exists language. split; [done|]. intros p Hp. split; [|by apply Hsame].
  destruct (Heach p Hp) as [Hpath _]. unfold validate_file_path in Hpath.
  by destruct (path_exists p).
Qed.

(** X18.  A batch of PDF or DOCX files that passes
    [validate_all_same_language] is grouped without error, whatever the
    libraries answer for the files. *)
Theorem container_batch_groups_without_error {py : PyAst} w file_paths file_path :
  validate_all_same_language file_paths = Passes →
  In file_path file_paths →
  container file_path →
  ∃ edges, group_similar_files w file_paths = Returns edges.
Proof.
  intros Hsame Hin Hc. rewrite one_extension_iff in Hsame.
  assert (Hall : Forall (readable w) file_paths).
  { apply Forall_forall. intros p Hp%list_elem_of_In. apply container_readable.
    unfold container. rewrite (Hsame p file_path Hp Hin). exact Hc. }
  destruct (group_similar_files_returns w file_paths Hall) as (scored & _ & -> & _).
  by eexists.
Qed.

(** ** Lines of an extracted document *)

Lemma splitlines_first_line text rest :
  one_line text = true →
  splitlines (text +:+ newline +:+ rest) = text :: splitlines rest.
Proof.
  unfold one_line. induction text as [|c t IH]; cbn [all_chars].
  - intros _. reflexivity.
  - intros [Hc Ht]%andb_true_iff. apply negb_true_iff in Hc.
    change (String c t +:+ newline +:+ rest) with (String c (t +:+ newline +:+ rest)).
    cbn [splitlines]. by rewrite Hc, IH.
Qed.

Lemma before_failure_all texts : before_failure (map Returns texts) = texts.
Proof. induction texts as [|t l IH]; cbn; [done|by rewrite IH]. Qed.

(** X19.  A DOCX whose paragraphs are all read and hold no line
    boundary is extracted to a text with one line per paragraph: the
    lines of the text are the paragraphs, empty ones included. *)
Theorem docx_lines_are_paragraphs w file_path paragraphs :
  file_ext file_path = "docx"%string →
  docx_Document w file_path = Returns (map Returns paragraphs) →
  Forall (fun text => one_line text = true) paragraphs →
  ∃ text, get_text_from_file w file_path = Returns text
    ∧ splitlines text = paragraphs.
Proof.
  intros E Hdoc Hall. unfold get_text_from_file. rewrite E.
  cbn [String.eqb Ascii.eqb Bool.eqb]. eexists; split; [reflexivity|].
  unfold extract_text_from_docx. rewrite Hdoc, docx_paragraphs_before_failure.
  rewrite before_failure_all.
  change (EmptyString +:+ ?s) with s. clear Hdoc.
  induction Hall as [|t l Ht _ IH]; [done|].
  cbn [map glue]. by rewrite string_app_assoc, splitlines_first_line, IH.
Qed.

(** ** The further statements on the examples *)

Lemma matched_lines_share_fingerprint_witness :
  get_text_from_file Fixtures.texts "ref.txt"
  = Returns (Examples.lines ["a"; "+"; "c - d"]%string)
  ∧ get_text_from_file Fixtures.texts "cand.txt"
    = Returns (Examples.lines ["b"; "-"; "+"; "e - 7"]%string)
  ∧ ∃ r, @compare_files Examples.cpython Fixtures.texts "ref.txt" "cand.txt" false
         = Returns r
     ∧ ∀ line', In line' (overlapping_lines r)
         ↔ In line' (splitlines (Examples.lines ["b"; "-"; "+"; "e - 7"]%string))
           ∧ ∃ line h,
               In line (splitlines (Examples.lines ["a"; "+"; "c - d"]%string))
               ∧ In h (@fingerprints Examples.cpython false line)
               ∧ In h (@fingerprints Examples.cpython false line').
Proof.
  split; [reflexivity|]. split; [reflexivity|].
  apply (@matched_lines_share_fingerprint Examples.cpython Fixtures.texts
           "ref.txt" "cand.txt"); reflexivity.
Defined.

Lemma result_within_bounds_witness :
  get_text_from_file Fixtures.texts "ref.txt"
  = Returns (Examples.lines ["a"; "+"; "c - d"]%string)
  ∧ get_text_from_file Fixtures.texts "cand.txt"
    = Returns (Examples.lines ["b"; "-"; "+"; "e - 7"]%string)
  ∧ ∃ r, @compare_files Examples.cpython Fixtures.texts "ref.txt" "cand.txt" false
         = Returns r
     ∧ (overlap_count r ≤ total_lines (Examples.lines ["b"; "-"; "+"; "e - 7"]%string))%nat
     ∧ (0 <= overlap_percentage r)%Q
     ∧ (overlap_percentage r <= 100)%Q.
Proof.
  split; [reflexivity|]. split; [reflexivity|].
  apply (@result_within_bounds Examples.cpython Fixtures.texts
           "ref.txt" "cand.txt"
           (Examples.lines ["a"; "+"; "c - d"]%string)); reflexivity.
Defined.

Lemma masked_copy_hypothesis :
  ∀ line', In line' (splitlines (Examples.lines ["zz"; "+"; "q - r"; "+"]%string)) →
    ∃ line, In line (splitlines (Examples.lines ["a"; "+"; "c - d"]%string))
          ∧ mask_words line' = mask_words line.
Proof.
  intros line' Hin. vm_compute in Hin.
  destruct Hin as [<-|[<-|[<-|[<-|[]]]]].
  - exists "a"%string. split; [vm_compute; auto|reflexivity].
  - exists "+"%string. split; [vm_compute; auto|reflexivity].
  - exists "c - d"%string. split; [vm_compute; auto|reflexivity].
  - exists "+"%string. split; [vm_compute; auto|reflexivity].
Defined.

Lemma masked_copy_matches_fully_witness :
  get_text_from_file Fixtures.texts "ref.txt"
  = Returns (Examples.lines ["a"; "+"; "c - d"]%string)
  ∧ get_text_from_file Fixtures.texts "copy.txt"
    = Returns (Examples.lines ["zz"; "+"; "q - r"; "+"]%string)
  ∧ (∀ line', In line' (splitlines (Examples.lines ["zz"; "+"; "q - r"; "+"]%string)) →
       ∃ line, In line (splitlines (Examples.lines ["a"; "+"; "c - d"]%string))
             ∧ mask_words line' = mask_words line)
  ∧ ∃ r, @compare_files Examples.cpython Fixtures.texts "ref.txt" "copy.txt" false
         = Returns r
     ∧ overlapping_lines r = splitlines (Examples.lines ["zz"; "+"; "q - r"; "+"]%string)
     ∧ overlap_count r = total_lines (Examples.lines ["zz"; "+"; "q - r"; "+"]%string)
     ∧ (overlap_percentage r ==
        if (0 <? total_lines (Examples.lines ["zz"; "+"; "q - r"; "+"]%string))%nat
        then 100 else 0)%Q.
Proof.
  split; [reflexivity|]. split; [reflexivity|]. split; [exact masked_copy_hypothesis|].
  apply (@masked_copy_matches_fully Examples.cpython Fixtures.texts
           "ref.txt" "copy.txt" (Examples.lines ["a"; "+"; "c - d"]%string));
    [reflexivity|reflexivity|exact masked_copy_hypothesis].
Defined.

Lemma part_within_ref :
  ∀ line, In line (splitlines (Examples.lines ["+"]%string)) →
    In line (splitlines (Examples.lines ["a"; "+"; "c - d"]%string)).
Proof.
  intros line Hin. vm_compute in Hin. destruct Hin as [<-|[]]. vm_compute. auto.
Defined.

Lemma larger_reference_matches_more_witness :
  get_text_from_file Fixtures.texts "part.txt" = Returns (Examples.lines ["+"]%string)
  ∧ get_text_from_file Fixtures.texts "ref.txt"
    = Returns (Examples.lines ["a"; "+"; "c - d"]%string)
  ∧ get_text_from_file Fixtures.texts "cand.txt"
    = Returns (Examples.lines ["b"; "-"; "+"; "e - 7"]%string)
  ∧ (∀ line, In line (splitlines (Examples.lines ["+"]%string)) →
       In line (splitlines (Examples.lines ["a"; "+"; "c - d"]%string)))
  ∧ ∃ r r',
      @compare_files Examples.cpython Fixtures.texts "part.txt" "cand.txt" false
      = Returns r
      ∧ @compare_files Examples.cpython Fixtures.texts "ref.txt" "cand.txt" false
        = Returns r'
      ∧ sublist (overlapping_lines r) (overlapping_lines r')
      ∧ (overlap_count r ≤ overlap_count r')%nat
      ∧ (overlap_percentage r <= overlap_percentage r')%Q.
Proof.
  split; [reflexivity|]. split; [reflexivity|]. split; [reflexivity|].
  split; [exact part_within_ref|].
  apply (@larger_reference_matches_more Examples.cpython Fixtures.texts
           "part.txt" "ref.txt" "cand.txt"
           (Examples.lines ["+"]%string)
           (Examples.lines ["a"; "+"; "c - d"]%string)
           (Examples.lines ["b"; "-"; "+"; "e - 7"]%string));
    [reflexivity|reflexivity|reflexivity|exact part_within_ref].
Defined.

Lemma shuffled_same_lines :
  ∀ line, In line (splitlines (Examples.lines ["a"; "+"; "c - d"]%string))
    ↔ In line (splitlines (Examples.lines ["c - d"; "a"; "+"; "a"]%string)).
Proof.
  intros line. split; intros Hin; vm_compute in Hin; vm_compute; tauto.
Defined.

Lemma reference_order_is_irrelevant_witness :
  get_text_from_file Fixtures.texts "ref.txt"
  = Returns (Examples.lines ["a"; "+"; "c - d"]%string)
  ∧ get_text_from_file Fixtures.texts "shuffled.txt"
    = Returns (Examples.lines ["c - d"; "a"; "+"; "a"]%string)
  ∧ get_text_from_file Fixtures.texts "cand.txt"
    = Returns (Examples.lines ["b"; "-"; "+"; "e - 7"]%string)
  ∧ (∀ line, In line (splitlines (Examples.lines ["a"; "+"; "c - d"]%string))
       ↔ In line (splitlines (Examples.lines ["c - d"; "a"; "+"; "a"]%string)))
  ∧ @compare_files Examples.cpython Fixtures.texts "ref.txt" "cand.txt" false
    = @compare_files Examples.cpython Fixtures.texts "shuffled.txt" "cand.txt" false.
Proof.
  split; [reflexivity|]. split; [reflexivity|]. split; [reflexivity|].
  split; [exact shuffled_same_lines|].
  apply (@reference_order_is_irrelevant Examples.cpython Fixtures.texts
           "ref.txt" "shuffled.txt" "cand.txt"
           (Examples.lines ["a"; "+"; "c - d"]%string)
           (Examples.lines ["c - d"; "a"; "+"; "a"]%string)
           (Examples.lines ["b"; "-"; "+"; "e - 7"]%string));
    [reflexivity|reflexivity|reflexivity|exact shuffled_same_lines].
Defined.

Lemma empty_reference_matches_nothing_witness :
  get_text_from_file Fixtures.texts "empty.txt" = Returns EmptyString
  ∧ get_text_from_file Fixtures.texts "cand.txt"
    = Returns (Examples.lines ["b"; "-"; "+"; "e - 7"]%string)
  ∧ ∃ r, @compare_files Examples.cpython Fixtures.texts "empty.txt" "cand.txt" false
         = Returns r
     ∧ overlapping_lines r = []
     ∧ overlap_count r = 0%nat
     ∧ (overlap_percentage r == 0)%Q.
Proof.
  split; [reflexivity|]. split; [reflexivity|].
  apply (@empty_reference_matches_nothing Examples.cpython Fixtures.texts
           "empty.txt" "cand.txt"
           (Examples.lines ["b"; "-"; "+"; "e - 7"]%string)); reflexivity.
Defined.

Lemma containers_compare_without_error_witness :
  container "two.docx" ∧ container "bad.pdf"
  ∧ ∃ r, @compare_files Examples.cpython Fixtures.containers "two.docx" "bad.pdf" true
         = Returns r.
Proof.
  split; [right; reflexivity|]. split; [left; reflexivity|].
  apply (@containers_compare_without_error Examples.cpython Fixtures.containers
           "two.docx" "bad.pdf" true); [right; reflexivity|left; reflexivity].
Defined.

Lemma bad_pdf_unopened : unopened Fixtures.containers "bad.pdf".
Proof. left. split; [reflexivity|]. eexists. reflexivity. Defined.

Lemma unopened_container_scores_zero_witness :
  readable Fixtures.containers "two.docx"
  ∧ readable Fixtures.containers "bad.pdf"
  ∧ (unopened Fixtures.containers "two.docx" ∨ unopened Fixtures.containers "bad.pdf")
  ∧ ∃ r, @compare_files Examples.cpython Fixtures.containers "two.docx" "bad.pdf" false
         = Returns r
     ∧ overlapping_lines r = []
     ∧ overlap_count r = 0%nat
     ∧ (overlap_percentage r == 0)%Q.
Proof.
  split; [eexists; reflexivity|]. split; [eexists; reflexivity|].
  split; [right; exact bad_pdf_unopened|].
  apply (@unopened_container_scores_zero Examples.cpython Fixtures.containers
           "two.docx" "bad.pdf" false);
    [eexists; reflexivity|eexists; reflexivity|right; exact bad_pdf_unopened].
Defined.


Lemma read_code_files_holds_every_text_witness :
  Forall (readable Examples.batch) ["a.txt"; "b.txt"; "c.txt"]%string
  ∧ ∃ code_contents,
      read_code_files Examples.batch ["a.txt"; "b.txt"; "c.txt"]%string
      = Returns code_contents
      ∧ ∀ file_path text, code_contents !! file_path = Some text
          ↔ In file_path ["a.txt"; "b.txt"; "c.txt"]%string
            ∧ get_text_from_file Examples.batch file_path = Returns text.
Proof.
  split; [exact batch_readable|].
  exact (read_code_files_holds_every_text Examples.batch
           ["a.txt"; "b.txt"; "c.txt"]%string batch_readable).
Defined.

Lemma edges_carry_pairwise_scores_witness :
  Forall (readable Examples.batch) ["a.txt"; "b.txt"; "c.txt"]%string
  ∧ ∃ edges,
      @group_similar_files Examples.cpython Examples.batch
        ["a.txt"; "b.txt"; "c.txt"]%string = Returns edges
      ∧ ∀ file1 file2 similarity_percentage,
          In (file1, file2, similarity_percentage) edges →
          ∃ code1 code2,
            get_text_from_file Examples.batch file1 = Returns code1
            ∧ get_text_from_file Examples.batch file2 = Returns code2
            ∧ similarity_percentage
              = fst (@compare_two_codes Examples.cpython code1 code2
                       (group_is_code file1)).
Proof.
  split; [exact batch_readable|].
  exact (@edges_carry_pairwise_scores Examples.cpython Examples.batch
           ["a.txt"; "b.txt"; "c.txt"]%string batch_readable).
Defined.

Lemma python_batch_validated :
  ∀ p, In p ["a.py"; "b.PY"]%string →
    validate_file_path Fixtures.on_disk p = Passes ∧ validate_file_extension p = Passes.
Proof. intros p [<-|[<-|[]]]; split; reflexivity. Defined.

Lemma validated_batch_has_one_language_witness :
  (∀ p, In p ["a.py"; "b.PY"]%string →
     validate_file_path Fixtures.on_disk p = Passes
     ∧ validate_file_extension p = Passes)
  ∧ validate_all_same_language ["a.py"; "b.PY"]%string = Passes
  ∧ In "b.PY"%string ["a.py"; "b.PY"]%string
  ∧ ∃ language, SUPPORTED_LANGUAGES !! file_ext "b.PY" = Some language
    ∧ ∀ p, In p ["a.py"; "b.PY"]%string →
        Fixtures.on_disk p = true ∧ file_ext p = file_ext "b.PY".
Proof.
  split; [exact python_batch_validated|]. split; [reflexivity|].
  split; [right; left; reflexivity|].
  apply (validated_batch_has_one_language Fixtures.on_disk
           ["a.py"; "b.PY"]%string "b.PY"%string);
    [exact python_batch_validated|reflexivity|right; left; reflexivity].
Defined.

Lemma container_batch_groups_without_error_witness :
  validate_all_same_language ["two.pdf"; "bad.pdf"; "x.PDF"]%string = Passes
  ∧ In "bad.pdf"%string ["two.pdf"; "bad.pdf"; "x.PDF"]%string
  ∧ container "bad.pdf"
  ∧ ∃ edges,
      @group_similar_files Examples.cpython Fixtures.containers
        ["two.pdf"; "bad.pdf"; "x.PDF"]%string = Returns edges.
Proof.
  split; [reflexivity|]. split; [right; left; reflexivity|].
  split; [left; reflexivity|].
  apply (@container_batch_groups_without_error Examples.cpython Fixtures.containers
           ["two.pdf"; "bad.pdf"; "x.PDF"]%string "bad.pdf"%string);
    [reflexivity|right; left; reflexivity|left; reflexivity].
Defined.

Lemma docx_lines_are_paragraphs_witness :
  file_ext "two.docx" = "docx"%string
  ∧ docx_Document Fixtures.containers "two.docx"
    = Returns (map Returns ["a"; "+"]%string)
  ∧ Forall (fun text => one_line text = true) ["a"; "+"]%string
  ∧ ∃ text, get_text_from_file Fixtures.containers "two.docx" = Returns text
    ∧ splitlines text = ["a"; "+"]%string.
Proof.
  split; [reflexivity|]. split; [reflexivity|].
  split; [repeat constructor|].
  apply (docx_lines_are_paragraphs Fixtures.containers "two.docx" ["a"; "+"]%string);
    [reflexivity|reflexivity|repeat constructor].
Defined.

(** X20.  The matched lines are reported as they stand in the
    candidate: the list is the candidate's list of lines with the
    unmatched lines left out, so a matched line that occurs several
    times is reported each time, in place. *)
Theorem matched_lines_keep_order_and_repeats
    {py : PyAst} w file1 file2 content1 content2 is_code :
  get_text_from_file w file1 = Returns content1 →
  get_text_from_file w file2 = Returns content2 →
  ∃ r, compare_files w file1 file2 is_code = Returns r
     ∧ overlapping_lines r
       = List.filter (fun line' => existsb (String.eqb line') (overlapping_lines r))
           (splitlines content2)
     ∧ overlap_count r = length (overlapping_lines r).
Proof.
  intros E1 E2. rewrite (compare_files_returns _ _ _ _ _ _ E1 E2).
  eexists; split; [reflexivity|].
  rewrite compare_contents_matches. cbn [overlapping_lines overlap_count].
  split; [|done]. apply filter_ext_in. intros line' Hin.
  apply eq_true_iff_eq. rewrite existsb_exists. split.
  - intros Hm. exists line'. split; [by apply filter_In|apply String.eqb_refl].
  - intros (x & [_ Hx]%filter_In & <-%String.eqb_eq). done.
Qed.

Lemma matched_lines_keep_order_and_repeats_witness :
  get_text_from_file Fixtures.texts "ref.txt"
  = Returns (Examples.lines ["a"; "+"; "c - d"]%string)
  ∧ get_text_from_file Fixtures.texts "copy.txt"
    = Returns (Examples.lines ["zz"; "+"; "q - r"; "+"]%string)
  ∧ ∃ r, @compare_files Examples.cpython Fixtures.texts "ref.txt" "copy.txt" false
         = Returns r
     ∧ overlapping_lines r
       = List.filter (fun line' => existsb (String.eqb line') (overlapping_lines r))
           (splitlines (Examples.lines ["zz"; "+"; "q - r"; "+"]%string))
     ∧ overlap_count r = length (overlapping_lines r).
Proof.
  split; [reflexivity|]. split; [reflexivity|].
  apply (@matched_lines_keep_order_and_repeats Examples.cpython Fixtures.texts
           "ref.txt" "copy.txt" (Examples.lines ["a"; "+"; "c - d"]%string));
    reflexivity.
Defined.

(** ** The percentage as the interpreter computes it *)




(** ** Renamings outside the word characters *)

